(** * acm_lib_search: record extraction, result selection and persistence

    A shallow embedding of [acm_lib_search.py].  Python values that the
    program stores without a static type are kept dynamically typed
    ([pyval]); exceptions are explicit ([result]); the file system, the
    two output streams and the rendered search page form an explicit
    [world] that is threaded through the effectful functions. *)

From Stdlib Require Import List String Ascii ZArith NArith Bool Lia.
Import ListNotations.

Local Open Scope string_scope.
Local Open Scope Z_scope.

(** ** Exceptions and fallible computations *)

(** The exception classes the program can meet.  All of them derive from
    Python's [Exception]. *)
Inductive exn : Type :=
| AttributeError
| KeyError
| TypeError
| ValueError
| IndexError
| OSError
| TimeoutException.

Inductive result (A : Type) : Type :=
| Ok (a : A)
| Raise (e : exn).

Arguments Ok {A} a.
Arguments Raise {A} e.

Definition bind {A B : Type} (m : result A) (k : A -> result B) : result B :=
  match m with
  | Ok a => k a
  | Raise e => Raise e
  end.

Notation "x <- m ;; k" := (bind m (fun x => k))
  (at level 61, m at next level, right associativity).

(** A [for] loop that appends [f x] for every [x], stopping at the first
    exception. *)
Fixpoint for_each {A B : Type} (f : A -> result B) (l : list A) : result (list B) :=
  match l with
  | [] => Ok []
  | x :: rest =>
      y <- f x ;;
      ys <- for_each f rest ;;
      Ok (y :: ys)
  end.

(** ** Strings

    A Python [str] is modelled by [string]; a character stands for the
    code point of the same number, so the model covers the code points
    below 256. *)

Definition nl : string := String (ascii_of_nat 10) EmptyString.

Definition code (c : ascii) : N := N_of_ascii c.

(** What the pattern [\s] matches among the code points below 256. *)
Definition is_space (c : ascii) : bool :=
  let n := code c in
  ((9 <=? n) && (n <=? 13) || (28 <=? n) && (n <=? 32) || (n =? 133) || (n =? 160))%N.

(** What [int] skips around a numeral: the six ASCII white-space
    characters and, above 127, the white space of Unicode (the code
    points 133 and 160 below 256).  The separators 28 to 31 are not
    skipped. *)
Definition is_int_space (c : ascii) : bool :=
  let n := code c in
  ((9 <=? n) && (n <=? 13) || (n =? 32) || (n =? 133) || (n =? 160))%N.

Definition is_digit (c : ascii) : bool :=
  let n := code c in ((48 <=? n) && (n <=? 57))%N.

(** [re.sub(r'\n', ' ', s)] *)
Fixpoint sub_newline (s : string) : string :=
  match s with
  | EmptyString => EmptyString
  | String c r =>
      String (if (code c =? 10)%N then " "%char else c) (sub_newline r)
  end.

(** [re.sub(r'\s+', ' ', s)]: [in_run] tells that the previous character
    belonged to the run of white space that is being replaced. *)
Fixpoint sub_spaces_from (in_run : bool) (s : string) : string :=
  match s with
  | EmptyString => EmptyString
  | String c r =>
      if is_space c
      then (if in_run then sub_spaces_from true r
            else String " "%char (sub_spaces_from true r))
      else String c (sub_spaces_from false r)
  end.

Definition sub_spaces (s : string) : string := sub_spaces_from false s.

Fixpoint lstrip (l : list ascii) : list ascii :=
  match l with
  | c :: r => if is_int_space c then lstrip r else l
  | [] => []
  end.

Definition strip (l : list ascii) : list ascii := rev (lstrip (rev (lstrip l))).

(** Decimal digits in which single underscores may separate digits. *)
Fixpoint digits (acc : Z) (after_digit : bool) (l : list ascii) : option Z :=
  match l with
  | [] => if after_digit then Some acc else None
  | c :: r =>
      if is_digit c then digits (10 * acc + (Z.of_N (code c) - 48)) true r
      else if (code c =? 95)%N
           then (if after_digit then digits acc false r else None)
           else None
  end.

(** The longest numeral [int] converts, counted in digits: the default
    of the interpreter, which the program does not change. *)
Definition max_str_digits : N := 4300.

Definition count_digits (l : list ascii) : N :=
  N.of_nat (List.length (filter is_digit l)).

(** An unsigned numeral; one of more than [max_str_digits] digits is
    refused. *)
Definition numeral (l : list ascii) : option Z :=
  if (max_str_digits <? count_digits l)%N then None else digits 0 false l.

(** [int(s)] for a [str]: surrounding white space, an optional sign,
    decimal digits. *)
Definition py_int (s : string) : result Z :=
  let body := strip (list_ascii_of_string s) in
  let signed :=
    match body with
    | c :: r =>
        if (code c =? 45)%N then option_map Z.opp (numeral r)
        else if (code c =? 43)%N then numeral r
        else numeral body
    | [] => None
    end in
  match signed with
  | Some z => Ok z
  | None => Raise ValueError
  end.

(** ** The parsed markup tree

    [BeautifulSoup(html, multi_valued_attributes=None)] builds a tree in
    which every attribute value is one string.  A fragment is given by
    the top-level nodes of that tree. *)

#[warnings="-register-all"]
Inductive node : Type :=
| Tag (name : string) (attrs : list (string * string)) (contents : list node)
| NavigableString (s : string)   (* text and CDATA *)
| Comment (s : string).          (* comments and the other special strings *)

Definition fragment : Type := list node.

(** [attrs.get(key)] *)
Fixpoint get (attrs : list (string * string)) (key : string) : option string :=
  match attrs with
  | [] => None
  | (k, v) :: rest => if String.eqb k key then Some v else get rest key
  end.

(** [tag.descendants]: every node below [tag], in document order. *)
Fixpoint descendants (n : node) : list node :=
  match n with
  | Tag _ _ cs => flat_map (fun c => c :: descendants c) cs
  | _ => []
  end.

(** One search criterion on an attribute: the value must equal the wanted
    string; an absent attribute only matches an empty wanted string. *)
Definition attr_matches (attrs : list (string * string)) (want : string * string) : bool :=
  match get attrs (fst want) with
  | Some v => String.eqb v (snd want)
  | None => String.eqb (snd want) ""
  end.

Definition matches (name : string) (wanted : list (string * string)) (n : node) : bool :=
  match n with
  | Tag nm attrs _ => String.eqb nm name && forallb (attr_matches attrs) wanted
  | _ => false
  end.

(** [tag.find_all(name, attrs)] and [tag.find(name, attrs)] *)
Definition find_all (name : string) (wanted : list (string * string)) (self : node) : list node :=
  filter (matches name wanted) (descendants self).

Definition find (name : string) (wanted : list (string * string)) (self : node) : option node :=
  List.find (matches name wanted) (descendants self).

Definition class_ (c : string) : list (string * string) := [("class", c)].

(** [tag.strings]: the text pieces below [tag] in document order. *)
Definition strings (self : node) : list string :=
  flat_map (fun d => match d with NavigableString s => [s] | _ => [] end)
           (descendants self).

(** [tag.text] *)
Definition text (self : node) : string := String.concat "" (strings self).

(** [tag.string]: the single string a tag holds, looked for through
    single children; [None] otherwise. *)
Fixpoint string_ (self : node) : option string :=
  match self with
  | Tag _ _ [c] =>
      match c with
      | NavigableString s => Some s
      | Comment s => Some s
      | Tag _ _ _ => string_ c
      end
  | _ => None
  end.

(** ** Python values and [SearchResult] *)

(** The values a field of a [SearchResult] can hold.  The constructor of
    [SearchResult] stores whatever it is given, so the fields carry no
    static type. *)
#[warnings="-register-all"]
Inductive pyval : Type :=
| PyNone
| PyInt (z : Z)
| PyStr (s : string)
| PyList (l : list pyval).

Definition is_str (v : pyval) : bool :=
  match v with PyStr _ => true | _ => false end.

Definition is_int (v : pyval) : bool :=
  match v with PyInt _ => true | _ => false end.

Definition is_str_list (v : pyval) : bool :=
  match v with PyList l => forallb is_str l | _ => false end.

Record SearchResult : Type := mkSearchResult {
  title : pyval;
  authors : pyval;
  conference : pyval;
  abstract : pyval;
  eprint_url : pyval;
  doi : pyval;
  total_citations : pyval;
  total_downloads : pyval;
  date : pyval
}.

Definition dict : Type := list (string * pyval).

(** [SearchResult.to_dict]: the attributes in the order [__init__] sets
    them. *)
Definition to_dict (r : SearchResult) : dict :=
  [ ("title", title r); ("authors", authors r); ("conference", conference r);
    ("abstract", abstract r); ("eprint_url", eprint_url r); ("doi", doi r);
    ("total_citations", total_citations r);
    ("total_downloads", total_downloads r); ("date", date r) ].

(** What a variable of the program that holds search results can hold. *)
Inductive pyobj : Type :=
| ObjNone
| ObjResult (r : SearchResult)
| ObjList (l : list SearchResult).

(** Truth value of an object, as [not obj] tests it: [SearchResult]
    defines neither [__bool__] nor [__len__]. *)
Definition truthy (o : pyobj) : bool :=
  match o with
  | ObjNone => false
  | ObjResult _ => true
  | ObjList [] => false
  | ObjList (_ :: _) => true
  end.

(** ** Accessors applied to the outcome of a lookup *)

(** [t[key]] where [t] is what [find] returned. *)
Definition getitem (t : option node) (key : string) : result string :=
  match t with
  | Some (Tag _ attrs _) =>
      match get attrs key with
      | Some v => Ok v
      | None => Raise KeyError
      end
  | _ => Raise TypeError
  end.

(** [t.text] where [t] is what [find] returned. *)
Definition text_of (t : option node) : result string :=
  match t with
  | Some n => Ok (text n)
  | None => Raise AttributeError
  end.

(** [re.sub(pattern, repl, v)] needs a string. *)
Definition re_sub (f : string -> string) (v : option string) : result pyval :=
  match v with
  | Some s => Ok (PyStr (f s))
  | None => Raise TypeError
  end.

(** ** The field rules *)

Definition parse_authors (bs : node) : result pyval :=
  let span_authors := find_all "span" (class_ "hlFld-ContribAuthor") bs in
  (* [find_all] returns a list, never [None]: the [else] branch is dead *)
  authors <- for_each (fun elem =>
                         let author_tag := find "a" [] elem in
                         author <- getitem author_tag "title" ;;
                         Ok (PyStr author)) span_authors ;;
  Ok (PyList authors).

Definition parse_abstract (bs : node) : result pyval :=
  match find "div" (class_ "issue-item__abstract truncate-text trunc-done") bs with
  | Some abstract_tag_parent =>
      let abstract_tag := find "p" [] abstract_tag_parent in
      abstract <- text_of abstract_tag ;;
      Ok (PyStr (sub_newline abstract ++ "..."))
  | None => Ok (PyStr "")
  end.

Definition parse_doi (bs : node) : result pyval :=
  match find "a" (class_ "issue-item__doi dot-separator") bs with
  | Some doi_tag =>
      Ok (match string_ doi_tag with Some s => PyStr s | None => PyNone end)
  | None => Ok (PyStr "")
  end.

Definition parse_date (bs : node) : result pyval :=
  match find "div" (class_ "bookPubDate simple-tooltip__block--b") bs with
  | Some date_tag => re_sub sub_spaces (string_ date_tag)
  | None => Ok (PyStr "")
  end.

Definition parse_title (bs : node) : result pyval :=
  match find "span" (class_ "hlFld-Title") bs with
  | Some title_parent_tag =>
      let title_chunks := strings title_parent_tag in
      let title := String.concat " " title_chunks in
      Ok (PyStr (sub_spaces title))
  | None => Ok (PyStr "")
  end.

Definition parse_conference (bs : node) : result pyval :=
  match find "span" (class_ "epub-section__title") bs with
  | Some conference_tag => Ok (PyStr (sub_spaces (text conference_tag)))
  | None => Ok (PyStr "")
  end.

Definition parse_pdf_link (bs : node) : result pyval :=
  match find "a" [("data-title", "PDF")] bs with
  | Some pdf_tag => href <- getitem (Some pdf_tag) "href" ;; Ok (PyStr href)
  | None => Ok (PyStr "")
  end.

Definition parse_total_citations (bs : node) : result pyval :=
  match find "div" (class_ "citation") bs with
  | Some citation_parent_tag =>
      let citation_tag := find "span" [] citation_parent_tag in
      t <- text_of citation_tag ;;
      n <- py_int t ;;
      Ok (PyInt n)
  | None => Ok (PyInt (-1))
  end.

Definition parse_total_downloads (bs : node) : result pyval :=
  match find "div" (class_ "metric") bs with
  | Some downloads_parent_tag =>
      let download_tag := find "span" [] downloads_parent_tag in
      t <- text_of download_tag ;;
      n <- py_int t ;;
      Ok (PyInt n)
  | None => Ok (PyInt (-1))
  end.

(** ** Extraction of records *)

(** What a caller hands over as [html]: the markup of one result, or, as
    the wrapper class and the command line do, the whole list of markups
    in one argument. *)
Inductive html_arg : Type :=
| Html (f : fragment)
| HtmlList (l : list fragment).

(** The document object the parser builds for a fragment. *)
Definition document (f : fragment) : node := Tag "[document]" [] f.

(** The record whose every field holds its "not found" value. *)
Definition sentinel_record : SearchResult :=
  mkSearchResult (PyStr "") (PyList []) (PyStr "") (PyStr "") (PyStr "")
                 (PyStr "") (PyInt (-1)) (PyInt (-1)) (PyStr "").

Section Extraction.

(** What the constructor [BeautifulSoup] does with a list instead of a
    string depends on the parser that is installed; the program does
    not fix it. *)
Variable BeautifulSoup_of_list : list fragment -> result node.

Definition BeautifulSoup (html : html_arg) : result node :=
  match html with
  | Html f => Ok (document f)
  | HtmlList l => BeautifulSoup_of_list l
  end.

Definition parse_html (html : html_arg) : result SearchResult :=
  bs <- BeautifulSoup html ;;
  title <- parse_title bs ;;
  authors <- parse_authors bs ;;
  conference <- parse_conference bs ;;
  abstract <- parse_abstract bs ;;
  doi <- parse_doi bs ;;
  pdf_link <- parse_pdf_link bs ;;
  date <- parse_date bs ;;
  tot_downloads <- parse_total_downloads bs ;;
  tot_citations <- parse_total_citations bs ;;
  Ok (mkSearchResult title authors conference abstract pdf_link doi
                     tot_citations tot_downloads date).

(** The loop fills [search_res]; the function ends without a [return]
    statement, so a call that does not raise evaluates to [None]. *)
Definition get_search_results_from_html (args : list html_arg) : result pyobj :=
  search_res <- for_each parse_html args ;;
  Ok ObjNone.

(** [args[0]] *)
Definition first_arg (args : list html_arg) : result html_arg :=
  match args with
  | a :: _ => Ok a
  | [] => Raise IndexError
  end.

Definition get_top_search_result_from_html (args : list html_arg) : result SearchResult :=
  html <- first_arg args ;;
  parse_html html.

End Extraction.

(** ** The world the program runs in *)

Record webdriver : Type := mkDriver { executable_path : option string }.

Record world : Type := mkWorld {
  (** whether starting the browser with the given driver path fails *)
  launch : option string -> option exn;
  (** what the search for a title renders: the markup of the result
      entries in document order, or the failure of the session *)
  page : string -> result (list fragment);
  (** every file as the sequence of the complete JSON objects appended
      to it *)
  files : list (string * list dict);
  (** the lines printed *)
  stdout : list string;
  (** the exceptions whose traceback was printed *)
  stderr : list exn;
  (** the outcome of the coming operations on files: [true] makes the
      operation fail with [OSError]; past the end every operation
      succeeds *)
  io_faults : list bool
}.

Definition set_files (fs : list (string * list dict)) (w : world) : world :=
  mkWorld (launch w) (page w) fs (stdout w) (stderr w) (io_faults w).

Definition set_faults (l : list bool) (w : world) : world :=
  mkWorld (launch w) (page w) (files w) (stdout w) (stderr w) l.

Definition io (A : Type) : Type := world -> result A * world.

Definition ret {A : Type} (a : A) : io A := fun w => (Ok a, w).

Definition lift {A : Type} (m : result A) : io A := fun w => (m, w).

Definition bind_io {A B : Type} (m : io A) (k : A -> io B) : io B :=
  fun w =>
    match m w with
    | (Ok a, w1) => k a w1
    | (Raise e, w1) => (Raise e, w1)
    end.

Notation "x <-- m ;; k" := (bind_io m (fun x => k))
  (at level 61, m at next level, right associativity).

Fixpoint for_each_io {A : Type} (f : A -> io unit) (l : list A) : io unit :=
  match l with
  | [] => ret tt
  | x :: rest => _ <-- f x ;; for_each_io f rest
  end.

(** [print(line)] *)
Definition print (line : string) : io unit :=
  fun w => (Ok tt, mkWorld (launch w) (page w) (files w) (stdout w ++ [line])%list
                           (stderr w) (io_faults w)).

(** [traceback.print_exc()] while [e] is being handled *)
Definition print_exc (e : exn) (w : world) : world :=
  mkWorld (launch w) (page w) (files w) (stdout w) (stderr w ++ [e])%list (io_faults w).

(** A call of a function of one parameter: with any other number of
    positional arguments the call raises [TypeError] before the body
    runs. *)
Definition call1 {A B : Type} (f : A -> io B) (args : list A) : io B :=
  match args with
  | [a] => f a
  | _ => lift (Raise TypeError)
  end.

(** *** Files *)

Definition next_fault (w : world) : bool * world :=
  match io_faults w with
  | [] => (false, w)
  | b :: rest => (b, set_faults rest w)
  end.


(** The file at [path], created empty if missing, extended by [new]. *)
Fixpoint fs_append (path : string) (new : list dict) (fs : list (string * list dict))
  : list (string * list dict) :=
  match fs with
  | [] => [(path, new)]
  | (p, c) :: rest =>
      if String.eqb p path then (p, (c ++ new)%list) :: rest
      else (p, c) :: fs_append path new rest
  end.

(** [open(file_path, 'a')] *)
Definition open_append (file_path : string) : io unit :=
  fun w =>
    let (fails, w1) := next_fault w in
    if fails then (Raise OSError, w1)
    else (Ok tt, set_files (fs_append file_path [] (files w1)) w1).

(** [json.dump(d, f, indent=2)] on the file opened at [file_path].
    [files] keeps the complete objects of a file only: of a write that
    fails nothing is recorded, whatever piece of the object has reached
    the file. *)
Definition json_dump (d : dict) (file_path : string) : io unit :=
  fun w =>
    let (fails, w1) := next_fault w in
    if fails then (Raise OSError, w1)
    else (Ok tt, set_files (fs_append file_path [d] (files w1)) w1).

(** What [for result in results] iterates over. *)
Definition iterate (results : pyobj) : result (list SearchResult) :=
  match results with
  | ObjList l => Ok l
  | _ => Raise TypeError
  end.

(** Every member of [exn] is an [Exception], so [except Exception]
    handles whatever the [try] block raises. *)
Definition write_results_to_disk (file_path : string) (results : pyobj) : io bool :=
  fun w =>
    let results :=
      match results with
      | ObjResult r => ObjList [r]
      | other => other
      end in
    let try_block :=
      _ <-- open_append file_path ;;
      l <-- lift (iterate results) ;;
      for_each_io (fun result => json_dump (to_dict result) file_path) l in
    match try_block w with
    | (Ok _, w1) => (Ok true, w1)
    | (Raise e, w1) => (Ok false, print_exc e w1)
    end.

(** *** The browser session *)

Definition setup_chromedriver (executable_path : option string) : io webdriver :=
  match executable_path with
  | Some p =>
      fun w =>
        match launch w (Some p) with
        | Some e => (Raise e, w)
        | None => (Ok (mkDriver (Some p)), w)
        end
  | None =>
      _ <-- print "INFO: Using chromedriver without executable path. Ensure driver is in PATH." ;;
      fun w =>
        match launch w None with
        | Some e => (Raise e, w)
        | None => (Ok (mkDriver None), w)
        end
  end.

Definition quit_driver (driver : webdriver) : io unit := ret tt.

Definition search_acm_for_title (title : string) (driver : webdriver) : io (list fragment) :=
  fun w => (page w title, w).

(** [parse_args], from the two options as given on the command line. *)
Definition parse_args (paper_title : string) (chromedriver_path : option string)
  : string * string :=
  match chromedriver_path with
  | None => (paper_title, "")
  | Some "" => (paper_title, "")
  | Some p => (paper_title, p)
  end.

(** ** The wrapper class and the command line *)

(** An instance of [ACMLibSearcher]; [parsed_res] is [None] as long as
    the attribute has not been assigned ([__init__] only sets
    [driver]). *)
Record ACMLibSearcher : Type := mkSearcher {
  driver : webdriver;
  parsed_res : option pyobj
}.

(** What the search methods hand back. *)
Inductive answer : Type :=
| Objects (o : pyobj)
| Dict (d : dict)
| Dicts (l : list dict).

(** A method: the instance is passed in and handed back as the call
    leaves it, also when the call raises. *)
Definition method (A : Type) : Type :=
  ACMLibSearcher -> world -> result A * ACMLibSearcher * world.

Definition new_ACMLibSearcher (chromedriver_path : option string) : io ACMLibSearcher :=
  d <-- setup_chromedriver chromedriver_path ;;
  ret (mkSearcher d None).

Section Program.

Variable BeautifulSoup_of_list : list fragment -> result node.

Definition search_top_20 (paper_title : string) (to_dict_flag : bool) : method answer :=
  fun self w =>
    match search_acm_for_title paper_title (driver self) w with
    | (Raise e, w1) => (Raise e, self, w1)
    | (Ok results, w1) =>
        match get_search_results_from_html BeautifulSoup_of_list [HtmlList results] with
        | Raise e => (Raise e, self, w1)
        | Ok parsed =>
            let self1 := mkSearcher (driver self) (Some parsed) in
            if to_dict_flag
            then (l <- iterate parsed ;; Ok (Dicts (map to_dict l)), self1, w1)
            else (Ok (Objects parsed), self1, w1)
        end
    end.

Definition search_top_1 (paper_title : string) (to_dict_flag : bool) : method answer :=
  fun self w =>
    match search_acm_for_title paper_title (driver self) w with
    | (Raise e, w1) => (Raise e, self, w1)
    | (Ok results, w1) =>
        match get_top_search_result_from_html BeautifulSoup_of_list [HtmlList results] with
        | Raise e => (Raise e, self, w1)
        | Ok parsed =>
            let self1 := mkSearcher (driver self) (Some (ObjResult parsed)) in
            if to_dict_flag
            then (Ok (Dict (to_dict parsed)), self1, w1)
            else (Ok (Objects (ObjResult parsed)), self1, w1)
        end
    end.

(** The value returned: Python's [None] is [None] here, a [bool] would
    be [Some]. *)
Definition save_results (file_path : string) : method (option bool) :=
  fun self w =>
    match parsed_res self with
    | None => (Raise AttributeError, self, w)
    | Some stored =>
        if negb (truthy stored) then (Raise ValueError, self, w)
        else
          let (_, w1) := write_results_to_disk file_path stored w in
          (Ok None, self, w1)
    end.

(** The block run from the command line. *)
Definition main (title_option : string) (path_option : option string) : io unit :=
  let (paper_title, webdriver_path) := parse_args title_option path_option in
  driver <-- (if (String.length webdriver_path =? 0)%nat
              then setup_chromedriver None
              else setup_chromedriver (Some webdriver_path)) ;;
  scraped_results <-- search_acm_for_title paper_title driver ;;
  _ <-- call1 quit_driver [] ;;
  res <-- lift (get_top_search_result_from_html BeautifulSoup_of_list
                  [HtmlList scraped_results]) ;;
  saved <-- write_results_to_disk "results.json" (ObjResult res) ;;
  if saved then print "Done"
  else print "Failed to save. Something went wrong. Aborting...".

End Program.

(** * Notions used in the statements *)

(** A parser that refuses a list of markups with [TypeError]. *)
Definition refuses_lists : list fragment -> result node :=
  fun _ => Raise TypeError.

Definition is_ok {A : Type} (m : result A) : bool :=
  match m with
  | Ok _ => true
  | Raise _ => false
  end.

(** ** Fragments on which every rule finds what it reads *)

(** The first anchor below the author container exists and carries a
    [title] attribute. *)
Definition author_ok (elem : node) : bool :=
  is_ok (getitem (find "a" [] elem) "title").

Definition authors_ok (bs : node) : bool :=
  forallb author_ok (find_all "span" (class_ "hlFld-ContribAuthor") bs).

Definition abstract_ok (bs : node) : bool :=
  match find "div" (class_ "issue-item__abstract truncate-text trunc-done") bs with
  | Some parent => match find "p" [] parent with Some _ => true | None => false end
  | None => true
  end.

Definition pdf_link_ok (bs : node) : bool :=
  match find "a" [("data-title", "PDF")] bs with
  | Some pdf_tag => is_ok (getitem (Some pdf_tag) "href")
  | None => true
  end.

Definition date_ok (bs : node) : bool :=
  match find "div" (class_ "bookPubDate simple-tooltip__block--b") bs with
  | Some date_tag => match string_ date_tag with Some _ => true | None => false end
  | None => true
  end.

(** The first [span] below the count container exists and [int]
    accepts its text. *)
Definition count_ok (container : option node) : bool :=
  match container with
  | Some parent =>
      match find "span" [] parent with
      | Some count => is_ok (py_int (text count))
      | None => false
      end
  | None => true
  end.

(** Every container that is present holds what its rule reads: the
    first anchor of each author container has a [title] attribute, the
    abstract container has a paragraph, the PDF anchor has an [href]
    attribute, the date element holds a single string, and in each of
    the two count containers the first [span] has a text that [int]
    accepts. *)
Definition well_formed (bs : node) : bool :=
  authors_ok bs && abstract_ok bs && pdf_link_ok bs && date_ok bs
  && count_ok (find "div" (class_ "metric") bs)
  && count_ok (find "div" (class_ "citation") bs).

(** Each field whose container is missing holds its "not found" value. *)
Definition sentinels_where_absent (bs : node) (r : SearchResult) : Prop :=
  (find "span" (class_ "hlFld-Title") bs = None -> title r = PyStr "")
  /\ (find_all "span" (class_ "hlFld-ContribAuthor") bs = [] -> authors r = PyList [])
  /\ (find "span" (class_ "epub-section__title") bs = None -> conference r = PyStr "")
  /\ (find "div" (class_ "issue-item__abstract truncate-text trunc-done") bs = None
      -> abstract r = PyStr "")
  /\ (find "a" [("data-title", "PDF")] bs = None -> eprint_url r = PyStr "")
  /\ (find "a" (class_ "issue-item__doi dot-separator") bs = None -> doi r = PyStr "")
  /\ (find "div" (class_ "citation") bs = None -> total_citations r = PyInt (-1))
  /\ (find "div" (class_ "metric") bs = None -> total_downloads r = PyInt (-1))
  /\ (find "div" (class_ "bookPubDate simple-tooltip__block--b") bs = None
      -> date r = PyStr "").

(** ** Sample fragments *)

(** [<li><div class="citation"></div></li>]: the citation container
    without the element that holds the count. *)
Definition citation_without_count : fragment :=
  [Tag "li" [] [Tag "div" [("class", "citation")] []]].

(** A title container as the result page has it: the title lies in a
    link, the search terms in it are marked up. *)
Definition sample_title_container : node :=
  Tag "span" [("class", "hlFld-Title")]
    [ Tag "a" [("href", "/doi/10.1145/1")]
        [ NavigableString "Formal ";
          Tag "span" [("class", "single_highlight_class")]
            [NavigableString "Verification"];
          NavigableString (" of" ++ nl ++ "  Parsers") ] ].

(** A truncated-abstract container. *)
Definition sample_abstract_container : node :=
  Tag "div" [("class", "issue-item__abstract truncate-text trunc-done")]
    [Tag "p" [] [NavigableString ("We verify" ++ nl ++ "a parser.")]].

(** A result entry with every container present. *)
Definition sample_entry : fragment :=
  [Tag "li" [("class", "search__item issue-item-container")]
     [ sample_title_container;
       Tag "ul" []
         [ Tag "li" []
             [Tag "span" [("class", "hlFld-ContribAuthor")]
                [Tag "a" [("href", "/profile/1"); ("title", "Jane Doe")]
                   [NavigableString "J. Doe"]]];
           Tag "li" []
             [Tag "span" [("class", "hlFld-ContribAuthor")]
                [Tag "a" [("href", "/profile/2"); ("title", "Richard Roe")]
                   [NavigableString "R. Roe"]]] ];
       Tag "span" [("class", "epub-section__title")]
         [NavigableString "PLDI  '24"];
       sample_abstract_container;
       Tag "a" [("class", "issue-item__doi dot-separator"); ("href", "https://doi.org/10.1145/1")]
         [NavigableString "https://doi.org/10.1145/1"];
       Tag "a" [("data-title", "PDF"); ("href", "/doi/pdf/10.1145/1")] [];
       Tag "div" [("class", "bookPubDate simple-tooltip__block--b")]
         [NavigableString "June  2024"];
       Tag "div" [("class", "citation")] [Tag "span" [] [NavigableString "12"]];
       Tag "div" [("class", "metric")] [Tag "span" [] [NavigableString "1_034"]] ]].

(** [<a class="issue-item__doi dot-separator"></a>]: the DOI link
    without any text in it. *)
Definition doi_link_without_text : fragment :=
  [Tag "li" [] [Tag "a" [("class", "issue-item__doi dot-separator")] []]].

(** ** Types of the fields *)

Definition is_none (v : pyval) : bool :=
  match v with PyNone => true | _ => false end.

(** Every field holds a value of the type [__init__] declares for it,
    [doi] being judged by [doi_ok]. *)
Definition field_types (doi_ok : pyval -> bool) (r : SearchResult) : bool :=
  is_str (title r) && is_str_list (authors r) && is_str (conference r)
  && is_str (abstract r) && is_str (eprint_url r) && doi_ok (doi r)
  && is_int (total_citations r) && is_int (total_downloads r) && is_str (date r).

Definition declared_types (r : SearchResult) : bool := field_types is_str r.

Definition declared_types_or_no_doi (r : SearchResult) : bool :=
  field_types (fun v => is_str v || is_none v) r.

(** ** Authors, abstract and title *)

Definition author_containers (bs : node) : list node :=
  find_all "span" (class_ "hlFld-ContribAuthor") bs.

(** The full name an author container carries: the [title] attribute of
    the first anchor in it. *)
Definition full_name (elem : node) : option string :=
  match find "a" [] elem with
  | Some (Tag _ attrs _) => get attrs "title"
  | _ => None
  end.

(** The text pieces that are children of the tag itself. *)
Definition direct_strings (n : node) : list string :=
  match n with
  | Tag _ _ cs =>
      flat_map (fun c => match c with NavigableString s => [s] | _ => [] end) cs
  | _ => []
  end.

(** The title read from the direct text pieces only. *)
Definition title_of_direct_pieces (c : node) : string :=
  sub_spaces (String.concat " " (direct_strings c)).

(** The string without its leading white space. *)
Fixpoint skip_spaces (s : string) : string :=
  match s with
  | EmptyString => EmptyString
  | String c r => if is_space c then skip_spaces r else s
  end.

(** No white space but the space character, and no two of them in a
    row; [after_space] tells that the previous character was one. *)
Fixpoint single_spaced (after_space : bool) (s : string) : bool :=
  match s with
  | EmptyString => true
  | String c r =>
      if is_space c
      then (code c =? 32)%N && negb after_space && single_spaced true r
      else single_spaced false r
  end.

(** ** A sample run *)

Definition info_line : string :=
  "INFO: Using chromedriver without executable path. Ensure driver is in PATH.".

(** The browser starts, the search renders [sample_entry], the disk is
    empty and no operation on it fails. *)
Definition sample_world : world :=
  mkWorld (fun _ => None) (fun _ => Ok [sample_entry]) [] [] [] [].

(** ** Outcome of a write *)




(** A world in which opening a file fails. *)
Definition failing_disk : world :=
  mkWorld (fun _ => None) (fun _ => Ok [sample_entry]) [] [] [] [true].

(** ** A sample use of the wrapper *)

(** [ACMLibSearcher().save_results(file_path)]: an instance is created
    and asked to save before any search. *)
Definition save_on_new_instance (file_path : string) : io (option bool) :=
  self <-- new_ACMLibSearcher None ;;
  fun w => let '(r, _, w1) := save_results file_path self w in (r, w1).

(** * Further notions *)

(** The string without any of its white space. *)
Fixpoint without_spaces (s : string) : string :=
  match s with
  | EmptyString => EmptyString
  | String c r => if is_space c then without_spaces r else String c (without_spaces r)
  end.

(** The character occurs in the string. *)
Fixpoint occurs (c : ascii) (s : string) : bool :=
  match s with
  | EmptyString => false
  | String c' r => Ascii.eqb c' c || occurs c r
  end.

Definition newline : ascii := ascii_of_nat 10.

(** The computation raises nothing but the exceptions listed. *)
Definition raises_only {A : Type} (allowed : list exn) (m : result A) : Prop :=
  forall e, m = Raise e -> In e allowed.

(** A character that no numeral holds: neither white space, nor a digit,
    nor an underscore, nor a sign. *)
Definition foreign (c : ascii) : bool :=
  negb (is_space c || is_digit c
        || (code c =? 95)%N || (code c =? 45)%N || (code c =? 43)%N).

(** [<div class="metric"><span>1,034</span></div>]: a download count
    written with a thousands separator. *)
Definition count_with_separator : fragment :=
  [Tag "li" [] [Tag "div" [("class", "metric")]
                  [Tag "span" [] [NavigableString "1,034"]]]].

(** Two author containers, the second without a link. *)
Definition authors_second_unlinked : fragment :=
  [Tag "ul" []
     [ Tag "span" [("class", "hlFld-ContribAuthor")]
         [Tag "a" [("title", "Jane Doe")] [NavigableString "J. Doe"]];
       Tag "span" [("class", "hlFld-ContribAuthor")] [NavigableString "R. Roe"] ]].

(** [<div class="citation"><span>-1</span></div>]: a count that reads as
    the "not found" value. *)
Definition citation_minus_one : fragment :=
  [Tag "li" [] [Tag "div" [("class", "citation")]
                  [Tag "span" [] [NavigableString "-1"]]]].

(** The characters of a string. *)
Definition chars (s : string) : list ascii := list_ascii_of_string s.

(** [sample_entry] as a parser that completes documents hands it over:
    inside a [body] inside an [html] element. *)
Definition sample_entry_in_body : fragment :=
  [Tag "html" [] [Tag "body" [] sample_entry]].


(** The option of the driver path is missing or empty. *)
Definition path_missing (path_option : option string) : bool :=
  match path_option with
  | None => true
  | Some p => (String.length p =? 0)%nat
  end.

(** A citation count followed by the unit separator (code point 31),
    which [\s] matches and [int] does not skip. *)
Definition count_with_unit_separator : fragment :=
  [Tag "li" [] [Tag "div" [("class", "citation")]
                  [Tag "span" [] [NavigableString ("12" ++ String (ascii_of_nat 31) "")]]]].

(** A numeral of [n] digits. *)
Definition ones (n : nat) : string := string_of_list_ascii (repeat "1"%char n).

(** * Properties *)

(** ** Fallible loops *)

Lemma is_ok_true {A : Type} (m : result A) :
  is_ok m = true <-> exists a, m = Ok a.
Proof.
  destruct m as [a | e]; simpl; split; intros H.
  - now exists a.
  - reflexivity.
  - discriminate.
  - destruct H as [a H]; discriminate.
Qed.

Lemma for_each_ok_iff {A B : Type} (f : A -> result B) (l : list A) :
  is_ok (for_each f l) = forallb (fun x => is_ok (f x)) l.
Proof.
  induction l as [| x rest IH]; simpl; [reflexivity |].
  destruct (f x) as [y | e]; simpl; [| reflexivity].
  rewrite <- IH.
  now destruct (for_each f rest).
Qed.

Lemma for_each_Forall {A B : Type} (P : B -> Prop) (f : A -> result B) (l : list A) (ys : list B) :
  (forall x y, f x = Ok y -> P y) -> for_each f l = Ok ys -> Forall P ys.
Proof.
  intros Hf; revert ys; induction l as [| x rest IH]; simpl; intros ys H.
  - inversion H; constructor.
  - destruct (f x) as [y | e] eqn:Hx; simpl in H; [| discriminate].
    destruct (for_each f rest) as [zs | e]; simpl in H; [| discriminate].
    inversion H; subst.
    constructor; [now apply (Hf x) | now apply IH].
Qed.

Lemma forallb_pointwise {A : Type} (p q : A -> bool) (l : list A) :
  (forall x, p x = q x) -> forallb p l = forallb q l.
Proof.
  intros H; induction l as [| x rest IH]; simpl; [reflexivity |].
  now rewrite H, IH.
Qed.

(** ** The field rules on fragments that hold what they read *)

Lemma parse_title_ok (bs : node) :
  exists s, parse_title bs = Ok (PyStr s)
            /\ (find "span" (class_ "hlFld-Title") bs = None -> s = "").
Proof.
  unfold parse_title.
  destruct (find "span" (class_ "hlFld-Title") bs) as [t |].
  - eexists; split; [reflexivity | discriminate].
  - exists ""; now split.
Qed.

Lemma parse_conference_ok (bs : node) :
  exists s, parse_conference bs = Ok (PyStr s)
            /\ (find "span" (class_ "epub-section__title") bs = None -> s = "").
Proof.
  unfold parse_conference.
  destruct (find "span" (class_ "epub-section__title") bs) as [t |].
  - eexists; split; [reflexivity | discriminate].
  - exists ""; now split.
Qed.

Lemma parse_doi_ok (bs : node) :
  exists v, parse_doi bs = Ok v
            /\ (find "a" (class_ "issue-item__doi dot-separator") bs = None -> v = PyStr "").
Proof.
  unfold parse_doi.
  destruct (find "a" (class_ "issue-item__doi dot-separator") bs) as [t |].
  - eexists; split; [reflexivity | discriminate].
  - exists (PyStr ""); now split.
Qed.

Lemma parse_authors_ok (bs : node) :
  authors_ok bs = true ->
  exists l, parse_authors bs = Ok (PyList l)
            /\ (find_all "span" (class_ "hlFld-ContribAuthor") bs = [] -> l = []).
Proof.
  unfold authors_ok, parse_authors; intros H.
  set (f := fun elem : node =>
              author <- getitem (find "a" [] elem) "title" ;; Ok (PyStr author)).
  assert (Hok : is_ok (for_each f (find_all "span" (class_ "hlFld-ContribAuthor") bs)) = true).
  { rewrite for_each_ok_iff.
    etransitivity; [| exact H].
    apply forallb_pointwise; intros elem; unfold f, author_ok.
    now destruct (getitem (find "a" [] elem) "title"). }
  apply is_ok_true in Hok; destruct Hok as [l Hl].
  exists l; split.
  - fold f; now rewrite Hl.
  - intros Hnone; rewrite Hnone in Hl; simpl in Hl; now inversion Hl.
Qed.

Lemma parse_abstract_ok (bs : node) :
  abstract_ok bs = true ->
  exists s, parse_abstract bs = Ok (PyStr s)
            /\ (find "div" (class_ "issue-item__abstract truncate-text trunc-done") bs = None
                -> s = "").
Proof.
  unfold abstract_ok, parse_abstract.
  destruct (find "div" (class_ "issue-item__abstract truncate-text trunc-done") bs) as [c |].
  - destruct (find "p" [] c) as [p |]; [| discriminate].
    intros _; eexists; split; [reflexivity | discriminate].
  - intros _; exists ""; now split.
Qed.

Lemma parse_pdf_link_ok (bs : node) :
  pdf_link_ok bs = true ->
  exists s, parse_pdf_link bs = Ok (PyStr s)
            /\ (find "a" [("data-title", "PDF")] bs = None -> s = "").
Proof.
  unfold pdf_link_ok, parse_pdf_link.
  destruct (find "a" [("data-title", "PDF")] bs) as [t |].
  - destruct (getitem (Some t) "href") as [v | e]; [| discriminate].
    intros _; eexists; split; [reflexivity | discriminate].
  - intros _; exists ""; now split.
Qed.

Lemma parse_date_ok (bs : node) :
  date_ok bs = true ->
  exists s, parse_date bs = Ok (PyStr s)
            /\ (find "div" (class_ "bookPubDate simple-tooltip__block--b") bs = None -> s = "").
Proof.
  unfold date_ok, parse_date.
  destruct (find "div" (class_ "bookPubDate simple-tooltip__block--b") bs) as [t |].
  - destruct (string_ t) as [s |]; [| discriminate].
    intros _; eexists; split; [reflexivity | discriminate].
  - intros _; exists ""; now split.
Qed.

Lemma count_rule_ok (container : option node) :
  count_ok container = true ->
  exists z,
    match container with
    | Some parent => t <- text_of (find "span" [] parent) ;; n <- py_int t ;; Ok (PyInt n)
    | None => Ok (PyInt (-1))
    end = Ok (PyInt z)
    /\ (container = None -> z = -1).
Proof.
  unfold count_ok.
  destruct container as [c |].
  - destruct (find "span" [] c) as [s |]; [| discriminate]; simpl.
    destruct (py_int (text s)) as [z | e]; [| discriminate].
    intros _; exists z; split; [reflexivity | discriminate].
  - intros _; exists (-1); now split.
Qed.

(** ** Extraction of one record *)

Section ExtractionFacts.

Variable B : list fragment -> result node.

Lemma parse_html_unfold (f : fragment) :
  parse_html B (Html f) =
    (title <- parse_title (document f) ;;
     authors <- parse_authors (document f) ;;
     conference <- parse_conference (document f) ;;
     abstract <- parse_abstract (document f) ;;
     doi <- parse_doi (document f) ;;
     pdf_link <- parse_pdf_link (document f) ;;
     date <- parse_date (document f) ;;
     tot_downloads <- parse_total_downloads (document f) ;;
     tot_citations <- parse_total_citations (document f) ;;
     Ok (mkSearchResult title authors conference abstract pdf_link doi
                        tot_citations tot_downloads date)).
Proof. reflexivity. Qed.

(** C1, as amended: on every fragment in which each container that is
    present holds what its rule reads (the first anchor of each author
    container has a [title] attribute, the abstract container has a
    paragraph, the PDF anchor has an [href] attribute, the date element
    holds a single string, the first [span] of each count container has
    a text that [int] accepts), [parse_html] returns a record and raises
    nothing, and every field whose container is absent holds that
    field's sentinel. *)
Theorem parse_html_well_formed (f : fragment) :
  well_formed (document f) = true ->
  exists r, parse_html B (Html f) = Ok r
            /\ sentinels_where_absent (document f) r.
Proof.
  unfold well_formed; intros H.
  apply andb_prop in H; destruct H as [H Hcit].
  apply andb_prop in H; destruct H as [H Hdown].
  apply andb_prop in H; destruct H as [H Hdate].
  apply andb_prop in H; destruct H as [H Hpdf].
  apply andb_prop in H; destruct H as [Hauth Habs].
  destruct (parse_title_ok (document f)) as [t [Ht Ht0]].
  destruct (parse_authors_ok _ Hauth) as [a [Ha Ha0]].
  destruct (parse_conference_ok (document f)) as [c [Hc Hc0]].
  destruct (parse_abstract_ok _ Habs) as [ab [Hab Hab0]].
  destruct (parse_doi_ok (document f)) as [d [Hd Hd0]].
  destruct (parse_pdf_link_ok _ Hpdf) as [p [Hp Hp0]].
  destruct (parse_date_ok _ Hdate) as [dt [Hdt Hdt0]].
  destruct (count_rule_ok _ Hdown) as [dn [Hdn Hdn0]].
  destruct (count_rule_ok _ Hcit) as [ci [Hci Hci0]].
  fold (parse_total_downloads (document f)) in Hdn.
  fold (parse_total_citations (document f)) in Hci.
  eexists; split.
  - rewrite parse_html_unfold, Ht, Ha, Hc, Hab, Hd, Hp, Hdt, Hdn, Hci.
    reflexivity.
  - unfold sentinels_where_absent; simpl.
    repeat split; intros Habsent.
    + now rewrite (Ht0 Habsent).
    + now rewrite (Ha0 Habsent).
    + now rewrite (Hc0 Habsent).
    + now rewrite (Hab0 Habsent).
    + now rewrite (Hp0 Habsent).
    + now apply Hd0.
    + now rewrite (Hci0 Habsent).
    + now rewrite (Hdn0 Habsent).
    + now rewrite (Hdt0 Habsent).
Qed.

End ExtractionFacts.

(** The empty fragment yields the record of sentinels. *)
Lemma parse_html_empty :
  parse_html refuses_lists (Html []) = Ok sentinel_record.
Proof. reflexivity. Qed.

Lemma parse_html_well_formed_witness :
  well_formed (document sample_entry) = true
  /\ exists r, parse_html refuses_lists (Html sample_entry) = Ok r
               /\ sentinels_where_absent (document sample_entry) r.
Proof.
  split; [reflexivity |].
  apply (parse_html_well_formed refuses_lists sample_entry); reflexivity.
Defined.

(** C1, as stated, fails: the citation container is present but holds no
    count element, and the exception leaves [parse_html]. *)
Lemma parse_html_raises_on_malformed :
  parse_html refuses_lists (Html citation_without_count) = Raise AttributeError
  /\ ~ (forall f : fragment, exists r, parse_html refuses_lists (Html f) = Ok r).
Proof.
  split; [reflexivity |].
  intros H; destruct (H citation_without_count) as [r Hr].
  discriminate Hr.
Qed.

(** ** The well-formed fragments are exactly those that are extracted *)

Lemma parse_authors_is_ok (bs : node) : is_ok (parse_authors bs) = authors_ok bs.
Proof.
  unfold parse_authors, authors_ok.
  destruct (for_each _ _) as [l | e] eqn:Hl; simpl;
    apply (f_equal is_ok) in Hl; rewrite for_each_ok_iff in Hl; simpl in Hl;
    (etransitivity; [symmetry; exact Hl |]);
    apply forallb_pointwise; intros elem; unfold author_ok;
    now destruct (getitem (find "a" [] elem) "title").
Qed.

Lemma parse_abstract_is_ok (bs : node) : is_ok (parse_abstract bs) = abstract_ok bs.
Proof.
  unfold parse_abstract, abstract_ok.
  destruct (find "div" _ bs) as [c |]; [| reflexivity].
  now destruct (find "p" [] c).
Qed.

Lemma parse_pdf_link_is_ok (bs : node) : is_ok (parse_pdf_link bs) = pdf_link_ok bs.
Proof.
  unfold parse_pdf_link, pdf_link_ok.
  destruct (find "a" _ bs) as [t |]; [| reflexivity].
  now destruct (getitem (Some t) "href").
Qed.

Lemma parse_date_is_ok (bs : node) : is_ok (parse_date bs) = date_ok bs.
Proof.
  unfold parse_date, date_ok.
  destruct (find "div" _ bs) as [t |]; [| reflexivity].
  now destruct (string_ t).
Qed.

Lemma parse_total_downloads_is_ok (bs : node) :
  is_ok (parse_total_downloads bs) = count_ok (find "div" (class_ "metric") bs).
Proof.
  unfold parse_total_downloads, count_ok.
  destruct (find "div" _ bs) as [c |]; [| reflexivity].
  destruct (find "span" [] c) as [s |]; simpl; [| reflexivity].
  now destruct (py_int (text s)).
Qed.

Lemma parse_total_citations_is_ok (bs : node) :
  is_ok (parse_total_citations bs) = count_ok (find "div" (class_ "citation") bs).
Proof.
  unfold parse_total_citations, count_ok.
  destruct (find "div" _ bs) as [c |]; [| reflexivity].
  destruct (find "span" [] c) as [s |]; simpl; [| reflexivity].
  now destruct (py_int (text s)).
Qed.

(** On a fragment that is not well formed an exception leaves
    [parse_html]; on a well-formed one a record comes back. *)
Lemma parse_html_is_ok (B : list fragment -> result node) (f : fragment) :
  is_ok (parse_html B (Html f)) = well_formed (document f).
Proof.
  unfold well_formed.
  rewrite <- parse_authors_is_ok, <- parse_abstract_is_ok, <- parse_pdf_link_is_ok,
    <- parse_date_is_ok, <- parse_total_downloads_is_ok, <- parse_total_citations_is_ok.
  rewrite parse_html_unfold.
  destruct (parse_title_ok (document f)) as [t [Ht _]]; rewrite Ht; simpl.
  destruct (parse_authors (document f)); simpl; [| reflexivity].
  destruct (parse_conference_ok (document f)) as [c [Hc _]]; rewrite Hc; simpl.
  destruct (parse_abstract (document f)); simpl; [| reflexivity].
  destruct (parse_doi_ok (document f)) as [d [Hd _]]; rewrite Hd; simpl.
  destruct (parse_pdf_link (document f)); simpl; [| reflexivity].
  destruct (parse_date (document f)); simpl; [| reflexivity].
  destruct (parse_total_downloads (document f)); simpl; [| reflexivity].
  now destruct (parse_total_citations (document f)).
Qed.

(** ** Types of the extracted fields *)

Lemma parse_authors_type (bs : node) (v : pyval) :
  parse_authors bs = Ok v -> is_str_list v = true.
Proof.
  unfold parse_authors.
  destruct (for_each _ _) as [l | e] eqn:Hl; simpl; intros H; inversion H; subst.
  simpl; apply forallb_forall.
  apply Forall_forall.
  eapply for_each_Forall; [| exact Hl].
  intros elem y; simpl.
  destruct (getitem (find "a" [] elem) "title"); simpl; intros Hy; inversion Hy.
  reflexivity.
Qed.

Lemma parse_abstract_type (bs : node) (v : pyval) :
  parse_abstract bs = Ok v -> is_str v = true.
Proof.
  unfold parse_abstract.
  destruct (find "div" _ bs) as [c |].
  - destruct (text_of (find "p" [] c)); simpl; intros H; inversion H; reflexivity.
  - intros H; inversion H; reflexivity.
Qed.

Lemma parse_pdf_link_type (bs : node) (v : pyval) :
  parse_pdf_link bs = Ok v -> is_str v = true.
Proof.
  unfold parse_pdf_link.
  destruct (find "a" _ bs) as [t |].
  - destruct (getitem (Some t) "href"); simpl; intros H; inversion H; reflexivity.
  - intros H; inversion H; reflexivity.
Qed.

Lemma parse_date_type (bs : node) (v : pyval) :
  parse_date bs = Ok v -> is_str v = true.
Proof.
  unfold parse_date.
  destruct (find "div" _ bs) as [t |].
  - destruct (string_ t); simpl; intros H; inversion H; reflexivity.
  - intros H; inversion H; reflexivity.
Qed.

Lemma parse_total_downloads_type (bs : node) (v : pyval) :
  parse_total_downloads bs = Ok v -> is_int v = true.
Proof.
  unfold parse_total_downloads.
  destruct (find "div" _ bs) as [c |].
  - destruct (text_of (find "span" [] c)) as [t | e]; simpl; [| discriminate].
    destruct (py_int t); simpl; intros H; inversion H; reflexivity.
  - intros H; inversion H; reflexivity.
Qed.

Lemma parse_total_citations_type (bs : node) (v : pyval) :
  parse_total_citations bs = Ok v -> is_int v = true.
Proof.
  unfold parse_total_citations.
  destruct (find "div" _ bs) as [c |].
  - destruct (text_of (find "span" [] c)) as [t | e]; simpl; [| discriminate].
    destruct (py_int t); simpl; intros H; inversion H; reflexivity.
  - intros H; inversion H; reflexivity.
Qed.

Lemma parse_doi_value (bs : node) (v : pyval) :
  parse_doi bs = Ok v ->
  (is_str v || is_none v = true)
  /\ (v = PyNone <->
      exists t, find "a" (class_ "issue-item__doi dot-separator") bs = Some t
                /\ string_ t = None).
Proof.
  unfold parse_doi.
  destruct (find "a" _ bs) as [t |].
  - destruct (string_ t) as [s |] eqn:Hs; intros H; inversion H; subst; split;
      try reflexivity.
    + split; [discriminate |].
      intros [t' [Ht' Hnone]]; inversion Ht'; subst; congruence.
    + split; [| reflexivity].
      intros _; now exists t.
  - intros H; inversion H; subst; split; [reflexivity |].
    split; [discriminate |].
    intros [t [Ht _]]; discriminate.
Qed.

Section FieldTypes.

Variable B : list fragment -> result node.

(** C4, as amended: a record that [parse_html] returns has its nine
    fields, each of the declared type (text, sequence of text or
    integer, the sentinel included), except that [doi] holds [None]
    exactly when the DOI link is present without a single string in
    it. *)
Theorem parse_html_field_types (html : html_arg) (r : SearchResult) :
  parse_html B html = Ok r ->
  declared_types_or_no_doi r = true
  /\ exists bs, BeautifulSoup B html = Ok bs
                /\ (doi r = PyNone <->
                    exists t, find "a" (class_ "issue-item__doi dot-separator") bs = Some t
                              /\ string_ t = None).
Proof.
  unfold parse_html.
  destruct (BeautifulSoup B html) as [bs | e]; simpl; [| discriminate].
  destruct (parse_title_ok bs) as [t [Ht _]]; rewrite Ht; simpl.
  destruct (parse_authors bs) as [a | e] eqn:Ha; simpl; [| discriminate].
  destruct (parse_conference_ok bs) as [c [Hc _]]; rewrite Hc; simpl.
  destruct (parse_abstract bs) as [ab | e] eqn:Hab; simpl; [| discriminate].
  destruct (parse_doi bs) as [d | e] eqn:Hd; simpl; [| discriminate].
  destruct (parse_pdf_link bs) as [p | e] eqn:Hp; simpl; [| discriminate].
  destruct (parse_date bs) as [dt | e] eqn:Hdt; simpl; [| discriminate].
  destruct (parse_total_downloads bs) as [dn | e] eqn:Hdn; simpl; [| discriminate].
  destruct (parse_total_citations bs) as [ci | e] eqn:Hci; simpl; [| discriminate].
  intros H; inversion H; subst; clear H.
  destruct (parse_doi_value _ _ Hd) as [Hdty Hdnone].
  split.
  - unfold declared_types_or_no_doi, field_types; simpl.
    rewrite (parse_authors_type _ _ Ha), (parse_abstract_type _ _ Hab),
      (parse_pdf_link_type _ _ Hp), (parse_date_type _ _ Hdt),
      (parse_total_downloads_type _ _ Hdn), (parse_total_citations_type _ _ Hci), Hdty.
    reflexivity.
  - exists bs; split; [reflexivity | exact Hdnone].
Qed.

End FieldTypes.

Lemma parse_html_field_types_witness :
  exists r, parse_html refuses_lists (Html sample_entry) = Ok r
            /\ declared_types_or_no_doi r = true.
Proof.
  eexists; split; [reflexivity |].
  eapply (parse_html_field_types refuses_lists (Html sample_entry)); reflexivity.
Defined.

(** C4, as stated, fails: the DOI link without text makes [parse_html]
    return a record whose [doi] is [None]. *)
Lemma parse_html_doi_none :
  exists r, parse_html refuses_lists (Html doi_link_without_text) = Ok r
            /\ doi r = PyNone
            /\ declared_types r = false.
Proof.
  eexists; split; [reflexivity |].
  split; reflexivity.
Qed.

(** ** Authors *)

Lemma full_name_getitem (elem : node) (name : string) :
  full_name elem = Some name -> getitem (find "a" [] elem) "title" = Ok name.
Proof.
  unfold full_name, getitem.
  destruct (find "a" [] elem) as [[nm attrs cs | s | s] |]; try discriminate.
  now intros ->.
Qed.

Lemma for_each_full_names (containers : list node) (names : list string) :
  map full_name containers = map Some names ->
  for_each (fun elem =>
              author <- getitem (find "a" [] elem) "title" ;; Ok (PyStr author))
           containers
  = Ok (map PyStr names).
Proof.
  revert names; induction containers as [| elem rest IH]; intros [| name names] H;
    simpl in H; try discriminate; [reflexivity |].
  inversion H as [[Hname Hrest]]; simpl.
  rewrite (full_name_getitem _ _ Hname); simpl.
  now rewrite (IH names Hrest).
Qed.

(** C7: when the author containers of a fragment carry the full names
    [names], one per container in document order, [parse_authors]
    returns exactly these names in that order, as many as there are
    containers; without any container it returns the empty sequence. *)
Theorem parse_authors_full_names (bs : node) (names : list string) :
  map full_name (author_containers bs) = map Some names ->
  parse_authors bs = Ok (PyList (map PyStr names))
  /\ List.length names = List.length (author_containers bs)
  /\ (author_containers bs = [] -> parse_authors bs = Ok (PyList [])).
Proof.
  intros H.
  assert (Hp : parse_authors bs = Ok (PyList (map PyStr names))).
  { unfold parse_authors; fold (author_containers bs).
    now rewrite (for_each_full_names _ _ H). }
  split; [exact Hp |]; split.
  - apply (f_equal (@List.length _)) in H.
    now rewrite !length_map in H.
  - intros Hnone; rewrite Hnone in H.
    destruct names; [exact Hp | discriminate].
Qed.

Lemma parse_authors_full_names_witness :
  map full_name (author_containers (document sample_entry))
  = map Some ["Jane Doe"; "Richard Roe"]
  /\ parse_authors (document sample_entry)
     = Ok (PyList [PyStr "Jane Doe"; PyStr "Richard Roe"]).
Proof.
  split; [reflexivity |].
  apply (parse_authors_full_names (document sample_entry) ["Jane Doe"; "Richard Roe"]).
  reflexivity.
Defined.

(** ** Abstract *)

(** Every character of [sub_newline s] is the character of [s] at the
    same place, a newline apart, which has become a space. *)
Lemma sub_newline_get (s : string) (i : nat) :
  String.get i (sub_newline s)
  = option_map (fun c => if (code c =? 10)%N then " "%char else c) (String.get i s).
Proof.
  revert i; induction s as [| c r IH]; intros [| i]; simpl; try reflexivity.
  apply IH.
Qed.

(** C8: when the truncated-abstract container is present, the abstract
    extracted from its paragraph is the paragraph's text with every
    newline turned into a space, followed by ["..."]; whatever abstract
    is extracted from such a fragment ends with ["..."]. *)
Theorem parse_abstract_truncated (bs c : node) :
  find "div" (class_ "issue-item__abstract truncate-text trunc-done") bs = Some c ->
  (forall p, find "p" [] c = Some p ->
             parse_abstract bs = Ok (PyStr (sub_newline (text p) ++ "...")))
  /\ (forall v, parse_abstract bs = Ok v ->
                exists p, find "p" [] c = Some p
                          /\ v = PyStr (sub_newline (text p) ++ "...")).
Proof.
  intros Hc; unfold parse_abstract; rewrite Hc; split.
  - intros p Hp; now rewrite Hp.
  - intros v; destruct (find "p" [] c) as [p |]; simpl; intros H; inversion H.
    now exists p.
Qed.

Lemma parse_abstract_truncated_witness :
  find "div" (class_ "issue-item__abstract truncate-text trunc-done") (document sample_entry)
  = Some sample_abstract_container
  /\ parse_abstract (document sample_entry) = Ok (PyStr "We verify a parser....").
Proof.
  split; [reflexivity |].
  destruct (parse_abstract_truncated (document sample_entry) sample_abstract_container
              eq_refl) as [Hfrom_paragraph _].
  apply (Hfrom_paragraph
           (Tag "p" [] [NavigableString ("We verify" ++ nl ++ "a parser.")])).
  reflexivity.
Defined.

(** ** Title *)

Lemma sub_spaces_from_run (s : string) :
  sub_spaces_from true s = sub_spaces_from false (skip_spaces s).
Proof.
  induction s as [| c r IH]; simpl; [reflexivity |].
  destruct (is_space c) eqn:Hc; simpl; [exact IH |].
  now rewrite Hc.
Qed.

(** A run of white space, however long, becomes one space. *)
Lemma sub_spaces_space (c : ascii) (r : string) :
  is_space c = true ->
  sub_spaces (String c r) = String " "%char (sub_spaces (skip_spaces r)).
Proof.
  intros Hc; unfold sub_spaces; simpl; rewrite Hc.
  now rewrite sub_spaces_from_run.
Qed.

(** Any other character is kept. *)
Lemma sub_spaces_other (c : ascii) (r : string) :
  is_space c = false -> sub_spaces (String c r) = String c (sub_spaces r).
Proof.
  intros Hc; unfold sub_spaces; simpl; now rewrite Hc.
Qed.

Lemma sub_spaces_from_single_spaced (b : bool) (s : string) :
  single_spaced b (sub_spaces_from b s) = true.
Proof.
  revert b; induction s as [| c r IH]; intros b; simpl; [reflexivity |].
  destruct (is_space c) eqn:Hc.
  - destruct b; simpl; apply IH.
  - simpl; rewrite Hc; apply IH.
Qed.

(** C9, as amended: the title is made of all the text pieces below the
    title container, those inside nested elements included, in document
    order, joined with single spaces, every run of white space then
    collapsed to one space; a container whose only text piece is
    ["Foo   \n  Bar"] yields ["Foo Bar"]. *)
Theorem parse_title_all_pieces (bs c : node) :
  find "span" (class_ "hlFld-Title") bs = Some c ->
  exists t, parse_title bs = Ok (PyStr t)
            /\ t = sub_spaces (String.concat " " (strings c))
            /\ single_spaced false t = true
            /\ (strings c = ["Foo   " ++ nl ++ "  Bar"] -> t = "Foo Bar").
Proof.
  intros Hc; unfold parse_title; rewrite Hc.
  eexists; split; [reflexivity |]; split; [reflexivity |]; split.
  - apply sub_spaces_from_single_spaced.
  - intros Hs; rewrite Hs; reflexivity.
Qed.

Lemma parse_title_all_pieces_witness :
  find "span" (class_ "hlFld-Title") (document sample_entry) = Some sample_title_container
  /\ exists t, parse_title (document sample_entry) = Ok (PyStr t)
               /\ t = "Formal Verification of Parsers".
Proof.
  split; [reflexivity |].
  destruct (parse_title_all_pieces (document sample_entry) sample_title_container eq_refl)
    as [t [Ht [Hval _]]].
  exists t; split; [exact Ht |].
  rewrite Hval; reflexivity.
Defined.

(** The example of the claim, on a fragment of its own. *)
Lemma parse_title_foo_bar :
  parse_title (document [Tag "span" [("class", "hlFld-Title")]
                           [NavigableString ("Foo   " ++ nl ++ "  Bar")]])
  = Ok (PyStr "Foo Bar").
Proof. reflexivity. Qed.

(** C9, as stated, fails: in [sample_entry] the container has no text
    piece of its own, all of the title lies in nested elements, and the
    title extracted is not the one made of the direct pieces. *)
Lemma parse_title_reads_nested_pieces :
  find "span" (class_ "hlFld-Title") (document sample_entry) = Some sample_title_container
  /\ parse_title (document sample_entry) = Ok (PyStr "Formal Verification of Parsers")
  /\ title_of_direct_pieces sample_title_container = ""
  /\ parse_title (document sample_entry)
     <> Ok (PyStr (title_of_direct_pieces sample_title_container)).
Proof.
  repeat split; discriminate.
Qed.

(** ** Selection of results *)

(** C3: with at least one argument the top-1 operation does what
    [parse_html] does on the first one, so it returns the record
    extracted from the first fragment; without arguments the indexing
    fails with [IndexError] and no record is returned. *)
Theorem get_top_search_result_first (B : list fragment -> result node) :
  (forall first rest,
      get_top_search_result_from_html B (first :: rest) = parse_html B first)
  /\ get_top_search_result_from_html B [] = Raise IndexError
  /\ (forall r, get_top_search_result_from_html B [] <> Ok r).
Proof.
  split; [reflexivity |]; split; [reflexivity |].
  intros r; discriminate.
Qed.

Lemma get_search_results_from_html_outcome
      (B : list fragment -> result node) (args : list html_arg) :
  get_search_results_from_html B args = Ok ObjNone
  \/ exists e, get_search_results_from_html B args = Raise e.
Proof.
  unfold get_search_results_from_html.
  destruct (for_each (parse_html B) args) as [l | e]; simpl.
  - now left.
  - right; now exists e.
Qed.

(** Whatever the parser does with a list, [search_top_20] hands back no
    records: it raises, or returns [None] when plain objects are asked
    for. *)
Lemma search_top_20_outcome
      (B : list fragment -> result node) (paper_title : string) (to_dict_flag : bool)
      (self : ACMLibSearcher) (w : world) :
  fst (fst (search_top_20 B paper_title to_dict_flag self w)) = Ok (Objects ObjNone)
  \/ exists e, fst (fst (search_top_20 B paper_title to_dict_flag self w)) = Raise e.
Proof.
  unfold search_top_20, search_acm_for_title.
  destruct (page w paper_title) as [results | e]; [| right; now exists e].
  destruct (get_search_results_from_html_outcome B [HtmlList results]) as [H | [e H]];
    rewrite H.
  - destruct to_dict_flag; simpl; [right; now exists TypeError | now left].
  - right; now exists e.
Qed.

(** C2 (the code departs from it): on two fragments that are both
    extracted without error the function returns [None], and on no
    arguments whatever does it return a sequence of records. *)
Theorem get_search_results_from_html_returns_none :
  get_search_results_from_html refuses_lists [Html sample_entry; Html []] = Ok ObjNone
  /\ (forall B args l, get_search_results_from_html B args <> Ok (ObjList l)).
Proof.
  split; [reflexivity |].
  intros B args l H.
  destruct (get_search_results_from_html_outcome B args) as [Hn | [e He]];
    rewrite H in *; discriminate.
Qed.

(** ** The command line *)

(** C5 (the code departs from it): in a run in which the browser starts
    and the search renders a result, the call [quit_driver()] raises
    [TypeError]; nothing is written and none of the two messages is
    printed.  No run of the block ever completes. *)
Theorem main_stops_at_quit_driver :
  main refuses_lists "A Study" None sample_world
  = (Raise TypeError,
     mkWorld (launch sample_world) (page sample_world) [] [info_line] [] [])
  /\ (forall B title_option path_option w,
         exists e w',
           main B title_option path_option w = (Raise e, w')
           /\ files w' = files w
           /\ stderr w' = stderr w
           /\ (stdout w' = stdout w \/ stdout w' = (stdout w ++ [info_line])%list)).
Proof.
  split; [reflexivity |].
  intros B title_option path_option w.
  unfold main.
  destruct (parse_args title_option path_option) as [paper_title webdriver_path].
  destruct (String.length webdriver_path =? 0)%nat.
  - unfold bind_io at 1; simpl.
    unfold bind_io at 1; simpl.
    destruct (launch w None) as [e |]; simpl.
    + exists e; eexists; split; [reflexivity |]; simpl; auto.
    + unfold bind_io, search_acm_for_title; simpl.
      destruct (page w paper_title) as [l | e]; simpl;
        eexists; eexists; (split; [reflexivity |]); simpl; auto.
  - unfold bind_io at 1; simpl.
    destruct (launch w (Some webdriver_path)) as [e |]; simpl.
    + exists e; eexists; split; [reflexivity |]; simpl; auto.
    + unfold bind_io, search_acm_for_title; simpl.
      destruct (page w paper_title) as [l | e]; simpl;
        eexists; eexists; (split; [reflexivity |]); simpl; auto.
Qed.

(** ** Persistence *)




(** Whatever happens in the [try] block, a [bool] comes back. *)
Lemma write_results_to_disk_returns (file_path : string) (results : pyobj) (w : world) :
  exists (saved : bool) (w' : world),
    write_results_to_disk file_path results w = (Ok saved, w').
Proof.
  unfold write_results_to_disk.
  match goal with
  | |- context [match ?run w with _ => _ end] => destruct (run w) as [[u | e] w1]
  end; eexists; eexists; reflexivity.
Qed.



Lemma write_results_to_disk_failing_disk :
  write_results_to_disk "results.json" (ObjResult sentinel_record) failing_disk
  = (Ok false,
     mkWorld (launch failing_disk) (page failing_disk) [] [] [OSError] []).
Proof. reflexivity. Qed.

(** ** The wrapper class *)

Lemma new_ACMLibSearcher_unset (chromedriver_path : option string) (w w1 : world)
      (self : ACMLibSearcher) :
  new_ACMLibSearcher chromedriver_path w = (Ok self, w1) -> parsed_res self = None.
Proof.
  unfold new_ACMLibSearcher, bind_io, ret.
  destruct (setup_chromedriver chromedriver_path w) as [[d | e] w2];
    intros H; inversion H; reflexivity.
Qed.

(** A stored value that counts as false makes [save_results] raise
    [ValueError] and leave the disk alone. *)
Lemma save_results_nothing_stored (file_path : string) (d : webdriver) (stored : pyobj)
      (w : world) :
  truthy stored = false ->
  save_results file_path (mkSearcher d (Some stored)) w
  = (Raise ValueError, mkSearcher d (Some stored), w).
Proof.
  intros H; unfold save_results; simpl; now rewrite H.
Qed.

(** With anything else stored, [save_results] returns [None], whether
    the write has succeeded or not. *)
Lemma save_results_returns_none (file_path : string) (d : webdriver) (stored : pyobj)
      (w : world) :
  truthy stored = true ->
  exists saved w',
    write_results_to_disk file_path stored w = (Ok saved, w')
    /\ save_results file_path (mkSearcher d (Some stored)) w
       = (Ok None, mkSearcher d (Some stored), w').
Proof.
  intros H; unfold save_results; simpl; rewrite H; simpl.
  destruct (write_results_to_disk_returns file_path stored w) as [saved [w' Hw]].
  exists saved, w'; now rewrite Hw.
Qed.

(** C10 (the code departs from it): on an instance on which no search
    has run, [parsed_res] has never been assigned, and [save_results]
    raises [AttributeError], not [ValueError]. *)
Theorem save_results_before_any_search :
  save_on_new_instance "results.json" sample_world
  = (Raise AttributeError,
     mkWorld (launch sample_world) (page sample_world) [] [info_line] [] [])
  /\ (forall file_path d w,
         save_results file_path (mkSearcher d None) w
         = (Raise AttributeError, mkSearcher d None, w)).
Proof.
  split; reflexivity.
Qed.

(** ** A whole entry *)

Lemma parse_html_sample_entry :
  parse_html refuses_lists (Html sample_entry)
  = Ok (mkSearchResult
          (PyStr "Formal Verification of Parsers")
          (PyList [PyStr "Jane Doe"; PyStr "Richard Roe"])
          (PyStr "PLDI '24")
          (PyStr "We verify a parser....")
          (PyStr "/doi/pdf/10.1145/1")
          (PyStr "https://doi.org/10.1145/1")
          (PyInt 12) (PyInt 1034)
          (PyStr "June 2024")).
Proof. reflexivity. Qed.

(** * Further properties of the field rules *)

(** ** White space in titles, venues and dates *)

Lemma code_space (c : ascii) : (code c =? 32)%N = true -> c = " "%char.
Proof.
  unfold code; intros H; apply N.eqb_eq in H.
  rewrite <- (ascii_N_embedding c), H; reflexivity.
Qed.

Lemma single_spaced_fixed (b : bool) (t : string) :
  single_spaced b t = true -> sub_spaces_from b t = t.
Proof.
  revert b; induction t as [| c r IH]; intros b; simpl; [reflexivity |].
  destruct (is_space c) eqn:Hc.
  - intros H.
    apply andb_prop in H; destruct H as [H Hr].
    apply andb_prop in H; destruct H as [H32 Hb].
    destruct b; [discriminate |].
    now rewrite (code_space _ H32), (IH true Hr).
  - intros Hr; now rewrite (IH false Hr).
Qed.

Lemma sub_spaces_idempotent (s : string) : sub_spaces (sub_spaces s) = sub_spaces s.
Proof.
  unfold sub_spaces.
  apply single_spaced_fixed, sub_spaces_from_single_spaced.
Qed.

(** X1: a title, a venue or a date that has been extracted is stable
    under the collapsing of white space: collapsing it once more gives
    the same string. *)
Theorem collapsed_fields_stable (bs : node) (s : string) :
  parse_title bs = Ok (PyStr s)
  \/ parse_conference bs = Ok (PyStr s)
  \/ parse_date bs = Ok (PyStr s) ->
  sub_spaces s = s.
Proof.
  intros [H | [H | H]].
  - unfold parse_title in H.
    destruct (find "span" _ bs); inversion H; [apply sub_spaces_idempotent | reflexivity].
  - unfold parse_conference in H.
    destruct (find "span" _ bs); inversion H; [apply sub_spaces_idempotent | reflexivity].
  - unfold parse_date in H.
    destruct (find "div" _ bs) as [t |]; [| inversion H; reflexivity].
    destruct (string_ t); inversion H.
    apply sub_spaces_idempotent.
Qed.

Lemma collapsed_fields_stable_witness :
  parse_date (document sample_entry) = Ok (PyStr "June 2024")
  /\ sub_spaces "June 2024" = "June 2024".
Proof.
  split; [reflexivity |].
  apply (collapsed_fields_stable (document sample_entry) "June 2024").
  right; right; reflexivity.
Defined.

Lemma without_spaces_sub_spaces_from (b : bool) (s : string) :
  without_spaces (sub_spaces_from b s) = without_spaces s.
Proof.
  revert b; induction s as [| c r IH]; intros b; simpl; [reflexivity |].
  destruct (is_space c) eqn:Hc.
  - destruct b; simpl; apply IH.
  - simpl; rewrite Hc; now rewrite IH.
Qed.

Lemma without_spaces_app (a b : string) :
  without_spaces (a ++ b) = without_spaces a ++ without_spaces b.
Proof.
  induction a as [| c r IH]; simpl; [reflexivity |].
  destruct (is_space c); simpl; now rewrite IH.
Qed.

Lemma without_spaces_join (l : list string) :
  without_spaces (String.concat " " l) = without_spaces (String.concat "" l).
Proof.
  induction l as [| x [| y rest] IH]; try reflexivity.
  change (String.concat " " (x :: y :: rest))
    with (x ++ " " ++ String.concat " " (y :: rest)).
  change (String.concat "" (x :: y :: rest))
    with (x ++ "" ++ String.concat "" (y :: rest)).
  rewrite !without_spaces_app, IH; reflexivity.
Qed.

(** X2: the characters of an extracted title (of an extracted venue)
    other than white space are those of the text of the title container
    (of the venue element), in the same order: the rule only adds,
    drops or replaces white space. *)
Theorem title_keeps_characters (bs : node) :
  (forall c s, find "span" (class_ "hlFld-Title") bs = Some c ->
               parse_title bs = Ok (PyStr s) ->
               without_spaces s = without_spaces (text c))
  /\ (forall c s, find "span" (class_ "epub-section__title") bs = Some c ->
                  parse_conference bs = Ok (PyStr s) ->
                  without_spaces s = without_spaces (text c)).
Proof.
  split; intros c s Hc H.
  - unfold parse_title in H; rewrite Hc in H; inversion H.
    unfold sub_spaces, text.
    now rewrite without_spaces_sub_spaces_from, without_spaces_join.
  - unfold parse_conference in H; rewrite Hc in H; inversion H.
    unfold sub_spaces.
    now rewrite without_spaces_sub_spaces_from.
Qed.

Lemma title_keeps_characters_witness :
  without_spaces "Formal Verification of Parsers"
  = without_spaces (text sample_title_container).
Proof.
  apply (proj1 (title_keeps_characters (document sample_entry))
               sample_title_container "Formal Verification of Parsers");
    reflexivity.
Defined.

(** ** The abstract *)

Lemma occurs_app (c : ascii) (a b : string) :
  occurs c (a ++ b) = occurs c a || occurs c b.
Proof.
  induction a as [| c' r IH]; simpl; [reflexivity |].
  now rewrite IH, orb_assoc.
Qed.

Lemma sub_newline_no_newline (s : string) : occurs newline (sub_newline s) = false.
Proof.
  induction s as [| c r IH]; simpl; [reflexivity |].
  rewrite IH, orb_false_r.
  destruct (code c =? 10)%N eqn:Hc; [reflexivity |].
  apply Ascii.eqb_neq; intros ->.
  discriminate Hc.
Qed.

Lemma sub_newline_length (s : string) :
  String.length (sub_newline s) = String.length s.
Proof.
  induction s as [| c r IH]; simpl; [reflexivity | now rewrite IH].
Qed.

Lemma length_app (a b : string) :
  String.length (a ++ b) = (String.length a + String.length b)%nat.
Proof.
  induction a as [| c r IH]; simpl; [reflexivity | now rewrite IH].
Qed.

(** X3: an abstract that has been extracted holds no newline; it is the
    empty string exactly when the truncated-abstract container is
    absent, and otherwise it is three characters longer than the text of
    the paragraph it is taken from. *)
Theorem parse_abstract_shape (bs : node) (s : string) :
  parse_abstract bs = Ok (PyStr s) ->
  occurs newline s = false
  /\ (s = "" <->
      find "div" (class_ "issue-item__abstract truncate-text trunc-done") bs = None)
  /\ (forall c p,
         find "div" (class_ "issue-item__abstract truncate-text trunc-done") bs = Some c ->
         find "p" [] c = Some p ->
         String.length s = (String.length (text p) + 3)%nat).
Proof.
  unfold parse_abstract.
  destruct (find "div" _ bs) as [c |].
  - destruct (find "p" [] c) as [p |] eqn:Hp; simpl; intros H; inversion H; subst.
    split; [| split].
    + now rewrite occurs_app, sub_newline_no_newline.
    + split; [| discriminate].
      intros Hs; apply (f_equal String.length) in Hs.
      rewrite length_app in Hs; simpl in Hs; lia.
    + intros c' p' Hc' Hp'; inversion Hc'; subst.
      rewrite Hp in Hp'; inversion Hp'; subst.
      now rewrite length_app, sub_newline_length.
  - intros H; inversion H; subst.
    split; [reflexivity |]; split; [now split | discriminate].
Qed.

Lemma parse_abstract_shape_witness :
  parse_abstract (document sample_entry) = Ok (PyStr "We verify a parser....")
  /\ occurs newline "We verify a parser...." = false.
Proof.
  split; [reflexivity |].
  apply (parse_abstract_shape (document sample_entry) "We verify a parser....").
  reflexivity.
Defined.

(** ** Exceptions of the field rules *)

Lemma find_is_tag (name : string) (wanted : list (string * string)) (self t : node) :
  find name wanted self = Some t ->
  exists nm attrs cs, t = Tag nm attrs cs /\ nm = name.
Proof.
  unfold find; intros H.
  apply find_some in H; destruct H as [_ H].
  destruct t as [nm attrs cs | s | s]; simpl in H; try discriminate.
  apply andb_prop in H; destruct H as [H _].
  apply String.eqb_eq in H.
  now exists nm, attrs, cs.
Qed.

Lemma for_each_raise {A B : Type} (f : A -> result B) (l : list A) (e : exn) :
  for_each f l = Raise e -> exists x, In x l /\ f x = Raise e.
Proof.
  induction l as [| x rest IH]; simpl; [discriminate |].
  destruct (f x) as [y | e'] eqn:Hx; simpl.
  - destruct (for_each f rest) as [ys | e'']; simpl; [discriminate |].
    intros H; inversion H; subst.
    destruct (IH eq_refl) as [z [Hz Hfz]].
    exists z; split; [now right | exact Hfz].
  - intros H; inversion H; subst.
    exists x; split; [now left | exact Hx].
Qed.

(** The loop raises what its first failing element raises. *)
Lemma for_each_first_failure {A B : Type} (f : A -> result B)
      (pre post : list A) (x : A) (e : exn) :
  forallb (fun y => is_ok (f y)) pre = true ->
  f x = Raise e ->
  for_each f (pre ++ x :: post)%list = Raise e.
Proof.
  induction pre as [| y rest IH]; simpl; intros Hpre Hx.
  - now rewrite Hx.
  - apply andb_prop in Hpre; destruct Hpre as [Hy Hrest].
    destruct (f y) as [v | e']; [| discriminate]; simpl.
    now rewrite (IH Hrest Hx).
Qed.

Lemma getitem_raises (t : option node) (key : string) (name : string)
      (wanted : list (string * string)) (self : node) :
  t = find name wanted self ->
  raises_only [TypeError; KeyError] (getitem t key)
  /\ (t <> None -> raises_only [KeyError] (getitem t key)).
Proof.
  intros Ht; unfold raises_only.
  destruct t as [n |].
  - symmetry in Ht; destruct (find_is_tag _ _ _ _ Ht) as [nm [attrs [cs [-> _]]]].
    simpl; destruct (get attrs key); split; try intros _; intros e H; inversion H;
      simpl; auto.
  - split; [| intros H; now elim H].
    simpl; intros e H; inversion H; simpl; auto.
Qed.

Lemma py_int_raises (s : string) : raises_only [ValueError] (py_int s).
Proof.
  unfold raises_only, py_int; intros e.
  match goal with |- context [match ?x with Some _ => _ | None => _ end] => destruct x end;
    intros H; inversion H; simpl; auto.
Qed.

Lemma count_rule_raises (container : option node) :
  raises_only [AttributeError; ValueError]
    (match container with
     | Some parent =>
         t <- text_of (find "span" [] parent) ;; n <- py_int t ;; Ok (PyInt n)
     | None => Ok (PyInt (-1))
     end).
Proof.
  unfold raises_only; intros e.
  destruct container as [c |]; [| discriminate].
  destruct (find "span" [] c) as [s |]; simpl.
  - destruct (py_int (text s)) as [z | e'] eqn:Hz; simpl; [discriminate |].
    intros H; inversion H; subst.
    destruct (py_int_raises _ _ Hz) as [<- | []]; auto.
  - intros H; inversion H; auto.
Qed.

(** X4: the exceptions that extraction lets through.  The rules for the
    title, the venue and the DOI raise nothing; the authors raise
    nothing but [TypeError] and [KeyError], the abstract nothing but
    [AttributeError], the PDF link nothing but [KeyError], the date
    nothing but [TypeError], the two counts nothing but
    [AttributeError] and [ValueError]; so [parse_html] on a fragment
    raises none but these four. *)
Theorem field_rules_exceptions (B : list fragment -> result node) (f : fragment) :
  let bs := document f in
  raises_only [] (parse_title bs)
  /\ raises_only [] (parse_conference bs)
  /\ raises_only [] (parse_doi bs)
  /\ raises_only [TypeError; KeyError] (parse_authors bs)
  /\ raises_only [AttributeError] (parse_abstract bs)
  /\ raises_only [KeyError] (parse_pdf_link bs)
  /\ raises_only [TypeError] (parse_date bs)
  /\ raises_only [AttributeError; ValueError] (parse_total_downloads bs)
  /\ raises_only [AttributeError; ValueError] (parse_total_citations bs)
  /\ raises_only [TypeError; KeyError; AttributeError; ValueError]
                 (parse_html B (Html f)).
Proof.
  intros bs.
  assert (Ht : raises_only [] (parse_title bs)).
  { intros e H; destruct (parse_title_ok bs) as [s [Hs _]]; congruence. }
  assert (Hc : raises_only [] (parse_conference bs)).
  { intros e H; destruct (parse_conference_ok bs) as [s [Hs _]]; congruence. }
  assert (Hd : raises_only [] (parse_doi bs)).
  { intros e H; destruct (parse_doi_ok bs) as [s [Hs _]]; congruence. }
  assert (Ha : raises_only [TypeError; KeyError] (parse_authors bs)).
  { intros e; unfold parse_authors.
    destruct (for_each _ _) as [l | e'] eqn:Hl; simpl; [discriminate |].
    intros H; inversion H; subst.
    apply for_each_raise in Hl; destruct Hl as [elem [_ He]].
    destruct (getitem (find "a" [] elem) "title") as [v | e'] eqn:Hg; simpl in He;
      [discriminate |].
    inversion He; subst.
    now apply (proj1 (getitem_raises _ "title" "a" [] elem eq_refl)). }
  assert (Hab : raises_only [AttributeError] (parse_abstract bs)).
  { intros e; unfold parse_abstract.
    destruct (find "div" _ bs) as [c |]; [| discriminate].
    destruct (find "p" [] c); simpl; intros H; inversion H; simpl; auto. }
  assert (Hp : raises_only [KeyError] (parse_pdf_link bs)).
  { intros e; unfold parse_pdf_link.
    destruct (find "a" _ bs) as [t |] eqn:Hf; [| discriminate].
    destruct (getitem (Some t) "href") as [v | e'] eqn:Hg; simpl; [discriminate |].
    intros H; inversion H; subst.
    apply (proj2 (getitem_raises (Some t) "href" _ _ _ (eq_sym Hf)));
      [discriminate | exact Hg]. }
  assert (Hdt : raises_only [TypeError] (parse_date bs)).
  { intros e; unfold parse_date.
    destruct (find "div" _ bs) as [t |]; [| discriminate].
    destruct (string_ t); simpl; intros H; inversion H; simpl; auto. }
  assert (Hdn : raises_only [AttributeError; ValueError] (parse_total_downloads bs))
    by apply count_rule_raises.
  assert (Hci : raises_only [AttributeError; ValueError] (parse_total_citations bs))
    by apply count_rule_raises.
  repeat (split; [assumption |]).
  intros e; rewrite parse_html_unfold; fold bs.
  destruct (parse_title bs) as [t | e1] eqn:E1; simpl;
    [| intros H; inversion H; subst; elim (Ht _ eq_refl)].
  destruct (parse_authors bs) as [a | e2] eqn:E2; simpl;
    [| intros H; inversion H; subst; specialize (Ha _ eq_refl); simpl in *; tauto].
  destruct (parse_conference bs) as [c | e3] eqn:E3; simpl;
    [| intros H; inversion H; subst; elim (Hc _ eq_refl)].
  destruct (parse_abstract bs) as [ab | e4] eqn:E4; simpl;
    [| intros H; inversion H; subst; specialize (Hab _ eq_refl); simpl in *; tauto].
  destruct (parse_doi bs) as [d | e5] eqn:E5; simpl;
    [| intros H; inversion H; subst; elim (Hd _ eq_refl)].
  destruct (parse_pdf_link bs) as [p | e6] eqn:E6; simpl;
    [| intros H; inversion H; subst; specialize (Hp _ eq_refl); simpl in *; tauto].
  destruct (parse_date bs) as [dt | e7] eqn:E7; simpl;
    [| intros H; inversion H; subst; specialize (Hdt _ eq_refl); simpl in *; tauto].
  destruct (parse_total_downloads bs) as [dn | e8] eqn:E8; simpl;
    [| intros H; inversion H; subst; specialize (Hdn _ eq_refl); simpl in *; tauto].
  destruct (parse_total_citations bs) as [ci | e9] eqn:E9; simpl;
    [discriminate |].
  intros H; inversion H; subst; specialize (Hci _ eq_refl); simpl in *; tauto.
Qed.

Lemma field_rules_exceptions_witness :
  parse_html refuses_lists (Html citation_without_count) = Raise AttributeError
  /\ In AttributeError [TypeError; KeyError; AttributeError; ValueError].
Proof.
  split; [reflexivity |].
  apply (field_rules_exceptions refuses_lists citation_without_count).
  reflexivity.
Defined.

(** ** One author without a full name *)

(** X5: the authors are all or nothing.  When the first author container
    that carries no full name comes after containers that all carry
    one, [parse_authors] raises, [TypeError] if that container has no
    anchor and [KeyError] if its anchor has no [title] attribute; the
    names read before are lost. *)
Theorem parse_authors_first_failure (bs : node) (pre post : list node) (elem : node) :
  author_containers bs = (pre ++ elem :: post)%list ->
  forallb (fun x => match full_name x with Some _ => true | None => false end) pre = true ->
  full_name elem = None ->
  parse_authors bs
  = Raise (match find "a" [] elem with None => TypeError | Some _ => KeyError end).
Proof.
  intros Hsplit Hpre Helem.
  unfold parse_authors; fold (author_containers bs); rewrite Hsplit.
  rewrite (for_each_first_failure _ pre post elem
             (match find "a" [] elem with None => TypeError | Some _ => KeyError end));
    [reflexivity | |].
  - etransitivity; [| exact Hpre].
    apply forallb_pointwise; intros x.
    destruct (full_name x) as [name |] eqn:Hx.
    + now rewrite (full_name_getitem _ _ Hx).
    + unfold full_name in Hx; unfold getitem.
      destruct (find "a" [] x) as [[nm attrs cs | s | s] |]; try reflexivity.
      now rewrite Hx.
  - unfold full_name in Helem; unfold getitem.
    destruct (find "a" [] elem) as [t |] eqn:Hf; [| reflexivity].
    destruct (find_is_tag _ _ _ _ Hf) as [nm [attrs [cs [-> _]]]].
    now rewrite Helem.
Qed.

Lemma parse_authors_first_failure_witness :
  parse_authors (document authors_second_unlinked) = Raise TypeError.
Proof.
  apply (parse_authors_first_failure (document authors_second_unlinked)
           [Tag "span" [("class", "hlFld-ContribAuthor")]
              [Tag "a" [("title", "Jane Doe")] [NavigableString "J. Doe"]]]
           []
           (Tag "span" [("class", "hlFld-ContribAuthor")] [NavigableString "R. Roe"]));
    reflexivity.
Defined.

(** ** The two counts *)

Lemma is_int_space_is_space (c : ascii) :
  is_int_space c = true -> is_space c = true.
Proof.
  destruct c as [[] [] [] [] [] [] [] []]; intros H; try reflexivity; discriminate H.
Qed.

Lemma not_space_not_int_space (c : ascii) :
  is_space c = false -> is_int_space c = false.
Proof.
  intros H; destruct (is_int_space c) eqn:Hc; [| reflexivity].
  apply is_int_space_is_space in Hc; congruence.
Qed.

Lemma lstrip_keeps (c : ascii) (l : list ascii) :
  In c l -> is_int_space c = false -> In c (lstrip l).
Proof.
  induction l as [| c' r IH]; simpl; intros Hin Hc; [exact Hin |].
  destruct (is_int_space c') eqn:Hc'.
  - destruct Hin as [-> | Hin]; [congruence | now apply IH].
  - exact Hin.
Qed.

Lemma lstrip_subset (c : ascii) (l : list ascii) : In c (lstrip l) -> In c l.
Proof.
  induction l as [| c' r IH]; simpl; [easy |].
  destruct (is_int_space c'); [intros H; right; now apply IH | easy].
Qed.

Lemma strip_keeps (c : ascii) (l : list ascii) :
  In c l -> is_int_space c = false -> In c (strip l).
Proof.
  intros Hin Hc; unfold strip.
  apply in_rev; rewrite rev_involutive.
  apply lstrip_keeps; [| exact Hc].
  apply -> in_rev.
  now apply lstrip_keeps.
Qed.

Lemma strip_subset (c : ascii) (l : list ascii) : In c (strip l) -> In c l.
Proof.
  unfold strip; intros H.
  apply in_rev in H; apply lstrip_subset in H; apply in_rev in H.
  now apply lstrip_subset.
Qed.

Lemma digits_foreign (c : ascii) (l : list ascii) :
  In c l -> is_digit c = false -> (code c =? 95)%N = false ->
  forall acc b, digits acc b l = None.
Proof.
  intros Hin Hd Hu.
  induction l as [| c' r IH]; [easy |]; intros acc b; simpl.
  destruct Hin as [-> | Hin].
  - now rewrite Hd, Hu.
  - destruct (is_digit c'); [now apply IH |].
    destruct (code c' =? 95)%N; [| reflexivity].
    destruct b; [now apply IH | reflexivity].
Qed.

Lemma numeral_foreign (c : ascii) (l : list ascii) :
  In c l -> is_digit c = false -> (code c =? 95)%N = false -> numeral l = None.
Proof.
  intros Hin Hd Hu; unfold numeral.
  destruct (max_str_digits <? count_digits l)%N; [reflexivity |].
  now apply (digits_foreign c).
Qed.

Lemma digits_nonneg (l : list ascii) :
  forall acc b z, 0 <= acc -> digits acc b l = Some z -> 0 <= z.
Proof.
  induction l as [| c r IH]; intros acc b z Hacc; cbn [digits].
  - destruct b; intros H; inversion H; now subst.
  - destruct (is_digit c) eqn:Hd.
    + apply IH.
      unfold is_digit in Hd; apply andb_prop in Hd; destruct Hd as [Hlo _].
      apply N.leb_le in Hlo; lia.
    + destruct (code c =? 95)%N; [| discriminate].
      destruct b; [now apply IH | discriminate].
Qed.

Lemma numeral_nonneg (l : list ascii) (z : Z) : numeral l = Some z -> 0 <= z.
Proof.
  unfold numeral.
  destruct (max_str_digits <? count_digits l)%N; [discriminate |].
  now apply digits_nonneg.
Qed.

(** [int] refuses a string in which a foreign character occurs. *)
Lemma py_int_foreign (c : ascii) (s : string) :
  In c (chars s) -> foreign c = true -> py_int s = Raise ValueError.
Proof.
  unfold foreign, chars; intros Hin Hf.
  apply negb_true_iff in Hf.
  apply orb_false_elim in Hf; destruct Hf as [Hf Hplus].
  apply orb_false_elim in Hf; destruct Hf as [Hf Hminus].
  apply orb_false_elim in Hf; destruct Hf as [Hf Hu].
  apply orb_false_elim in Hf; destruct Hf as [Hsp Hd].
  unfold py_int.
  pose proof (strip_keeps _ _ Hin (not_space_not_int_space _ Hsp)) as Hbody.
  destruct (strip (list_ascii_of_string s)) as [| c0 r]; [reflexivity |].
  assert (Hr : (code c0 =? 45)%N = true \/ (code c0 =? 43)%N = true -> In c r).
  { intros Hsign; destruct Hbody as [-> | Hr]; [| exact Hr].
    destruct Hsign; congruence. }
  destruct (code c0 =? 45)%N.
  - now rewrite (numeral_foreign c r (Hr (or_introl eq_refl)) Hd Hu).
  - destruct (code c0 =? 43)%N.
    + now rewrite (numeral_foreign c r (Hr (or_intror eq_refl)) Hd Hu).
    + now rewrite (numeral_foreign c (c0 :: r) Hbody Hd Hu).
Qed.

(** [int] gives a negative number only for a string that holds a minus
    sign. *)
Lemma py_int_negative (s : string) (z : Z) :
  py_int s = Ok z -> z < 0 -> In "-"%char (chars s).
Proof.
  unfold py_int, chars; intros H Hz.
  destruct (strip (list_ascii_of_string s)) as [| c0 r] eqn:Hbody; [discriminate |].
  destruct (code c0 =? 45)%N eqn:Hminus.
  - apply strip_subset; rewrite Hbody; left.
    apply N.eqb_eq in Hminus; unfold code in Hminus.
    rewrite <- (ascii_N_embedding c0), Hminus; reflexivity.
  - exfalso.
    destruct (code c0 =? 43)%N.
    + destruct (numeral r) as [v |] eqn:Hv; inversion H; subst.
      apply numeral_nonneg in Hv; lia.
    + destruct (numeral (c0 :: r)) as [v |] eqn:Hv; inversion H; subst.
      apply numeral_nonneg in Hv; lia.
Qed.

(** X6: a count whose text holds a character that is neither white
    space, a digit, an underscore nor a sign (a thousands separator, a
    letter) is not extracted: the rule for the downloads and the rule
    for the citations raise [ValueError]. *)
Theorem count_with_foreign_character (bs parent count : node) (c : ascii) :
  find "span" [] parent = Some count ->
  In c (chars (text count)) ->
  foreign c = true ->
  (find "div" (class_ "metric") bs = Some parent ->
   parse_total_downloads bs = Raise ValueError)
  /\ (find "div" (class_ "citation") bs = Some parent ->
      parse_total_citations bs = Raise ValueError).
Proof.
  intros Hspan Hin Hf.
  pose proof (py_int_foreign _ _ Hin Hf) as Hint.
  split; intros Hparent.
  - unfold parse_total_downloads; rewrite Hparent, Hspan; simpl.
    now rewrite Hint.
  - unfold parse_total_citations; rewrite Hparent, Hspan; simpl.
    now rewrite Hint.
Qed.

Lemma count_with_foreign_character_witness :
  parse_total_downloads (document count_with_separator) = Raise ValueError.
Proof.
  apply (count_with_foreign_character (document count_with_separator)
           (Tag "div" [("class", "metric")] [Tag "span" [] [NavigableString "1,034"]])
           (Tag "span" [] [NavigableString "1,034"]) ","%char).
  - reflexivity.
  - right; left; reflexivity.
  - reflexivity.
  - reflexivity.
Defined.

(** X7: a negative count, and so the value [-1], has one of two
    origins: the container is absent and the count is [-1], or the
    container is present and its count text holds a minus sign.  A count
    written with digits only is never negative. *)
Theorem negative_count_origin (bs : node) (z : Z) :
  z < 0 ->
  (parse_total_citations bs = Ok (PyInt z) ->
   (find "div" (class_ "citation") bs = None /\ z = -1)
   \/ exists parent count,
        find "div" (class_ "citation") bs = Some parent
        /\ find "span" [] parent = Some count
        /\ In "-"%char (chars (text count)))
  /\ (parse_total_downloads bs = Ok (PyInt z) ->
      (find "div" (class_ "metric") bs = None /\ z = -1)
      \/ exists parent count,
           find "div" (class_ "metric") bs = Some parent
           /\ find "span" [] parent = Some count
           /\ In "-"%char (chars (text count))).
Proof.
  intros Hz.
  assert (Hrule : forall container,
    match container with
    | Some parent =>
        t <- text_of (find "span" [] parent) ;; n <- py_int t ;; Ok (PyInt n)
    | None => Ok (PyInt (-1))
    end = Ok (PyInt z) ->
    (container = None /\ z = -1)
    \/ exists parent count,
         container = Some parent /\ find "span" [] parent = Some count
         /\ In "-"%char (chars (text count))).
  { intros [parent |]; [| intros H; inversion H; now left].
    destruct (find "span" [] parent) as [count |] eqn:Hs; simpl; [| discriminate].
    destruct (py_int (text count)) as [n |] eqn:Hn; simpl; [| discriminate].
    intros H; inversion H; subst.
    right; exists parent, count; repeat split; [exact Hs |].
    now apply (py_int_negative _ _ Hn). }
  split; intros H; exact (Hrule _ H).
Qed.

Lemma negative_count_origin_witness :
  parse_total_citations (document citation_minus_one) = Ok (PyInt (-1))
  /\ ((find "div" (class_ "citation") (document citation_minus_one) = None /\ -1 = -1)
      \/ exists parent count,
           find "div" (class_ "citation") (document citation_minus_one) = Some parent
           /\ find "span" [] parent = Some count
           /\ In "-"%char (chars (text count))).
Proof.
  split; [reflexivity |].
  apply (negative_count_origin (document citation_minus_one) (-1)); [lia | reflexivity].
Defined.

(** ** Elements around a fragment *)

Lemma descendants_wrapped (n : string) (a : list (string * string)) (f : fragment) :
  descendants (document [Tag n a f]) = Tag n a f :: descendants (document f).
Proof.
  simpl; now rewrite app_nil_r.
Qed.

Lemma find_wrapped (name : string) (wanted : list (string * string))
      (n : string) (a : list (string * string)) (f : fragment) :
  n <> name ->
  find name wanted (document [Tag n a f]) = find name wanted (document f).
Proof.
  intros Hn; unfold find; rewrite descendants_wrapped; simpl.
  apply String.eqb_neq in Hn; now rewrite Hn.
Qed.

Lemma find_all_wrapped (name : string) (wanted : list (string * string))
      (n : string) (a : list (string * string)) (f : fragment) :
  n <> name ->
  find_all name wanted (document [Tag n a f]) = find_all name wanted (document f).
Proof.
  intros Hn; unfold find_all; rewrite descendants_wrapped; simpl.
  apply String.eqb_neq in Hn; now rewrite Hn.
Qed.

(** X8: an element put around a fragment changes nothing, unless it is
    itself a [span], a [div] or an [a]: every rule searches the whole
    tree below the document, so [parse_html] gives the same outcome
    whether or not the parser has wrapped the markup (in [html] and
    [body], say). *)
Theorem parse_html_wrapped (B : list fragment -> result node)
        (n : string) (a : list (string * string)) (f : fragment) :
  n <> "span" -> n <> "div" -> n <> "a" ->
  parse_html B (Html [Tag n a f]) = parse_html B (Html f).
Proof.
  intros Hspan Hdiv Ha.
  rewrite !parse_html_unfold.
  unfold parse_title, parse_authors, parse_conference, parse_abstract, parse_doi,
    parse_pdf_link, parse_date, parse_total_downloads, parse_total_citations.
  rewrite !(find_wrapped "span" _ n a f Hspan), !(find_wrapped "div" _ n a f Hdiv),
    !(find_wrapped "a" _ n a f Ha), (find_all_wrapped "span" _ n a f Hspan).
  reflexivity.
Qed.

Lemma parse_html_wrapped_witness :
  parse_html refuses_lists (Html sample_entry_in_body)
  = parse_html refuses_lists (Html sample_entry).
Proof.
  unfold sample_entry_in_body.
  rewrite (parse_html_wrapped refuses_lists "html" [] [Tag "body" [] sample_entry]);
    try discriminate.
  apply (parse_html_wrapped refuses_lists "body" [] sample_entry); discriminate.
Defined.

(** ** The whole result set *)

(** X9: extraction of a result set stops at the first fragment that
    fails: when the arguments before one parse and that one raises,
    [get_search_results_from_html] raises the same exception, whatever
    comes after. *)
Theorem result_set_first_failure (B : list fragment -> result node)
        (pre post : list html_arg) (html : html_arg) (e : exn) :
  forallb (fun h => is_ok (parse_html B h)) pre = true ->
  parse_html B html = Raise e ->
  get_search_results_from_html B (pre ++ html :: post)%list = Raise e.
Proof.
  intros Hpre Hhtml; unfold get_search_results_from_html.
  now rewrite (for_each_first_failure _ pre post html e Hpre Hhtml).
Qed.

Lemma result_set_first_failure_witness :
  get_search_results_from_html refuses_lists
    [Html sample_entry; Html citation_without_count; Html []]
  = Raise AttributeError.
Proof.
  apply (result_set_first_failure refuses_lists
           [Html sample_entry] [Html []] (Html citation_without_count) AttributeError);
    reflexivity.
Defined.

(** X10: on a sequence of fragments, extraction of the result set gets
    through without an exception exactly when every fragment is well
    formed, while the top-1 operation only needs the first one to be. *)
Theorem result_set_completes (B : list fragment -> result node) (fs : list fragment) :
  is_ok (get_search_results_from_html B (map Html fs))
  = forallb (fun f => well_formed (document f)) fs
  /\ is_ok (get_top_search_result_from_html B (map Html fs))
     = match fs with
       | f :: _ => well_formed (document f)
       | [] => false
       end.
Proof.
  split.
  - unfold get_search_results_from_html.
    transitivity (is_ok (for_each (parse_html B) (map Html fs))).
    { now destruct (for_each (parse_html B) (map Html fs)). }
    rewrite for_each_ok_iff.
    induction fs as [| f rest IH]; simpl; [reflexivity |].
    now rewrite parse_html_is_ok, IH.
  - destruct fs as [| f rest]; [reflexivity |].
    simpl map.
    change (get_top_search_result_from_html B (Html f :: map Html rest))
      with (parse_html B (Html f)).
    apply parse_html_is_ok.
Qed.

(** ** Other files *)






(** ** Writes in a row *)





(** ** Searching, then saving *)

(** X13: on an instance that has stored nothing yet, saving after
    [search_top_20] never writes.  Either the search has raised before
    storing anything, the instance is as it was and [save_results]
    raises [AttributeError]; or the search has stored [None] and
    [save_results] raises [ValueError].  In both cases the world is left
    as it was. *)
Theorem save_after_search_top_20 (B : list fragment -> result node)
        (paper_title file_path : string) (to_dict_flag : bool)
        (d : webdriver) (w : world) :
  exists (r : result answer) (self' : ACMLibSearcher),
    search_top_20 B paper_title to_dict_flag (mkSearcher d None) w = (r, self', w)
    /\ ((self' = mkSearcher d None
         /\ (exists e, r = Raise e)
         /\ save_results file_path self' w = (Raise AttributeError, self', w))
        \/ (parsed_res self' = Some ObjNone
            /\ save_results file_path self' w = (Raise ValueError, self', w))).
Proof.
  unfold search_top_20, search_acm_for_title.
  destruct (page w paper_title) as [results | e].
  - destruct (get_search_results_from_html_outcome B [HtmlList results]) as [H | [e H]];
      rewrite H.
    + destruct to_dict_flag; eexists; eexists; (split; [reflexivity |]);
        right; split; reflexivity.
    + eexists; eexists; split; [reflexivity |].
      left; split; [reflexivity |]; split; [now exists e | reflexivity].
  - eexists; eexists; split; [reflexivity |].
    left; split; [reflexivity |]; split; [now exists e | reflexivity].
Qed.

(** X14: both search methods hand the whole list of markups to
    [parse_html] as one argument.  With a parser that refuses every
    list, neither of them ever returns: each raises and leaves the
    instance and the world as they were, so that [parsed_res] is never
    stored. *)
Theorem search_never_returns (B : list fragment -> result node)
        (paper_title : string) (to_dict_flag : bool)
        (self : ACMLibSearcher) (w : world) :
  (forall l, is_ok (B l) = false) ->
  (exists e, search_top_1 B paper_title to_dict_flag self w = (Raise e, self, w))
  /\ (exists e, search_top_20 B paper_title to_dict_flag self w = (Raise e, self, w)).
Proof.
  intros HB.
  unfold search_top_1, search_top_20, search_acm_for_title.
  destruct (page w paper_title) as [results | e].
  - unfold get_top_search_result_from_html, get_search_results_from_html, parse_html;
      simpl.
    specialize (HB results).
    destruct (B results) as [bs | e]; [discriminate |]; simpl.
    split; now exists e.
  - split; now exists e.
Qed.

Lemma search_never_returns_witness :
  search_top_1 refuses_lists "A Study" true (mkSearcher (mkDriver None) None) sample_world
  = (Raise TypeError, mkSearcher (mkDriver None) None, sample_world)
  /\ exists e,
       search_top_20 refuses_lists "A Study" true (mkSearcher (mkDriver None) None)
                     sample_world
       = (Raise e, mkSearcher (mkDriver None) None, sample_world).
Proof.
  split; [reflexivity |].
  apply (search_never_returns refuses_lists "A Study" true
           (mkSearcher (mkDriver None) None) sample_world).
  reflexivity.
Defined.

(** ** The driver the command line starts *)

(** X15: the command line starts the browser with the driver path it is
    given, and without a path when the option is missing or empty; the
    notice about the missing path is printed in the second case and
    nothing else is ever printed; a browser that fails to start ends
    the run with its exception. *)
Theorem main_driver_choice (B : list fragment -> result node)
        (title_option : string) (path_option : option string) (w : world) :
  exists (r : result unit) (w' : world),
    main B title_option path_option w = (r, w')
    /\ stdout w' = (stdout w ++ if path_missing path_option then [info_line] else [])%list
    /\ (forall e, launch w (if path_missing path_option then None else path_option) = Some e ->
                  r = Raise e).
Proof.
  assert (Hargs : parse_args title_option path_option
                  = (title_option,
                     if path_missing path_option then ""
                     else match path_option with Some p => p | None => "" end)).
  { destruct path_option as [[| c p] |]; reflexivity. }
  unfold main; rewrite Hargs.
  destruct (path_missing path_option) eqn:Hmiss.
  - simpl String.length; simpl Nat.eqb; cbv iota.
    unfold bind_io at 1; simpl.
    unfold bind_io at 1; simpl.
    destruct (launch w None) as [e |]; simpl.
    + eexists; eexists; split; [reflexivity |]; simpl; split; [reflexivity |].
      intros e' He'; congruence.
    + unfold bind_io, search_acm_for_title; simpl.
      destruct (page w title_option) as [l | e]; simpl;
        eexists; eexists; (split; [reflexivity |]); simpl;
        (split; [reflexivity | discriminate]).
  - destruct path_option as [p |]; [| discriminate].
    simpl in Hmiss; rewrite Hmiss.
    unfold bind_io at 1; simpl.
    destruct (launch w (Some p)) as [e |]; simpl.
    + eexists; eexists; split; [reflexivity |]; simpl; split;
        [now rewrite app_nil_r |].
      intros e' He'; congruence.
    + unfold bind_io, search_acm_for_title; simpl.
      destruct (page w title_option) as [l | e]; simpl;
        eexists; eexists; (split; [reflexivity |]); simpl;
        (split; [now rewrite app_nil_r | discriminate]).
Qed.

Lemma main_driver_choice_witness :
  exists (r : result unit) (w' : world),
    main refuses_lists "A Study" (Some "") sample_world = (r, w')
    /\ stdout w' = [info_line].
Proof.
  destruct (main_driver_choice refuses_lists "A Study" (Some "") sample_world)
    as [r [w' [Hrun [Hout _]]]].
  exists r, w'; split; [exact Hrun | exact Hout].
Defined.

(** ** Two entries in one fragment *)

Lemma descendants_app (f1 f2 : fragment) :
  descendants (document (f1 ++ f2)%list)
  = (descendants (document f1) ++ descendants (document f2))%list.
Proof.
  simpl; apply flat_map_app.
Qed.

Lemma find_document_app (name : string) (wanted : list (string * string))
      (f1 f2 : fragment) :
  find name wanted (document (f1 ++ f2)%list)
  = match find name wanted (document f1) with
    | Some c => Some c
    | None => find name wanted (document f2)
    end.
Proof.
  unfold find; rewrite descendants_app.
  induction (descendants (document f1)) as [| x rest IH]; simpl; [reflexivity |].
  now destruct (matches name wanted x).
Qed.

Lemma for_each_app {A B : Type} (f : A -> result B) (l1 l2 : list A) (r1 r2 : list B) :
  for_each f l1 = Ok r1 -> for_each f l2 = Ok r2 ->
  for_each f (l1 ++ l2)%list = Ok (r1 ++ r2)%list.
Proof.
  revert r1; induction l1 as [| x rest IH]; simpl; intros r1 H1 H2.
  - inversion H1; exact H2.
  - destruct (f x) as [y | e]; simpl in *; [| discriminate].
    destruct (for_each f rest) as [ys | e]; simpl in *; [| discriminate].
    inversion H1; subst.
    now rewrite (IH ys eq_refl H2).
Qed.

(** X16: when the markup of two entries forms one fragment, the authors
    of the first are followed by the authors of the second, and the
    title is the one of the first entry that has a title container. *)
Theorem entries_side_by_side (f1 f2 : fragment) :
  (forall a1 a2,
      parse_authors (document f1) = Ok (PyList a1) ->
      parse_authors (document f2) = Ok (PyList a2) ->
      parse_authors (document (f1 ++ f2)%list) = Ok (PyList (a1 ++ a2)%list))
  /\ parse_title (document (f1 ++ f2)%list)
     = match find "span" (class_ "hlFld-Title") (document f1) with
       | Some _ => parse_title (document f1)
       | None => parse_title (document f2)
       end.
Proof.
  split.
  - intros a1 a2 H1 H2.
    unfold parse_authors, find_all in *.
    rewrite descendants_app, filter_app.
    destruct (for_each _ (filter _ (descendants (document f1)))) as [l1 | e] eqn:E1;
      simpl in H1; [| discriminate].
    destruct (for_each _ (filter _ (descendants (document f2)))) as [l2 | e] eqn:E2;
      simpl in H2; [| discriminate].
    inversion H1; inversion H2; subst.
    now rewrite (for_each_app _ _ _ _ _ E1 E2).
  - unfold parse_title; rewrite find_document_app.
    now destruct (find "span" (class_ "hlFld-Title") (document f1)).
Qed.

Lemma entries_side_by_side_witness :
  parse_authors (document (sample_entry ++ sample_entry)%list)
  = Ok (PyList ([PyStr "Jane Doe"; PyStr "Richard Roe"]
                ++ [PyStr "Jane Doe"; PyStr "Richard Roe"])%list).
Proof.
  apply (proj1 (entries_side_by_side sample_entry sample_entry)); reflexivity.
Defined.

(** ** What [int] accepts *)

(** White space around the numeral is skipped, the separators 28 to 31
    are not. *)
Lemma py_int_white_space :
  py_int (" 12" ++ nl) = Ok 12
  /\ py_int (String (ascii_of_nat 160) "12" ++ String (ascii_of_nat 133) "") = Ok 12
  /\ py_int ("12" ++ String (ascii_of_nat 31) "") = Raise ValueError
  /\ py_int (String (ascii_of_nat 28) "12") = Raise ValueError.
Proof. repeat split. Qed.

(** A numeral of 4300 digits is converted, one of 4301 digits is
    refused. *)
Lemma py_int_longest_numeral :
  is_ok (py_int (ones 4300)) = true
  /\ py_int (ones 4301) = Raise ValueError
  /\ py_int ("-" ++ ones 4301) = Raise ValueError.
Proof. repeat split; vm_compute; reflexivity. Qed.

(** A count followed by the unit separator makes the fragment ill
    formed, and [ValueError] leaves [parse_html]. *)
Lemma parse_html_count_with_unit_separator :
  well_formed (document count_with_unit_separator) = false
  /\ parse_html refuses_lists (Html count_with_unit_separator) = Raise ValueError.
Proof. split; reflexivity. Qed.
